(** * RMM memory resources: the allocator contract and the Python registry

    A shallow embedding of

    - [include/rmm/mr/memory_resource.hpp]: [memory_kind], the abstract
      [memory_resource<_Kind, _Context>] with its public non-virtual
      interface and private virtuals, [pmr_adaptor] and
      [stream_ordered_memory_resource<_Kind>];
    - the Cython module of the Python binding: the [MemoryResource]
      extension types, the module global [_mr], [_initialize],
      [_set_default_resource], [get_default_resource_type],
      [is_initialized] and [_flush_logs].

    Code that can throw, raise or touch state is written in one small
    state-and-outcome monad, [Eff]. *)

From stdpp Require Import gmap strings list fin_maps.

Set Implicit Arguments.

(** ** Outcomes and the effect monad *)

(** What a call does: it returns, it throws (C++) or raises (Python), or it
    has no defined behaviour (a C attribute read through [None]). *)
Inductive outcome (E A : Type) : Type :=
| Return (a : A)
| Raise (e : E)
| Undefined.
Arguments Return {E A} a.
Arguments Raise {E A} e.
Arguments Undefined {E A}.

Definition Eff (W E A : Type) : Type := W -> outcome E A * W.

Definition ret {W E A} (a : A) : Eff W E A := fun w => (Return a, w).

Definition raise {W E A} (e : E) : Eff W E A := fun w => (Raise e, w).

Definition undefined {W E A} : Eff W E A := fun w => (Undefined, w).

Definition bind {W E A B} (m : Eff W E A) (k : A -> Eff W E B) : Eff W E B :=
  fun w =>
    match m w with
    | (Return a, w') => k a w'
    | (Raise e, w') => (Raise e, w')
    | (Undefined, w') => (Undefined, w')
    end.

Definition get {W E} : Eff W E W := fun w => (Return w, w).

Definition modify {W E} (f : W -> W) : Eff W E unit := fun w => (Return tt, f w).

Declare Scope eff_scope.
Delimit Scope eff_scope with eff.
Notation "'let!' x ':=' m 'in' k" := (bind m (fun x => k))
  (at level 10, x name, m at level 100, k at level 200) : eff_scope.

(** ** [memory_resource.hpp] *)

Module mr.

(** [enum class memory_kind] *)
Inductive memory_kind : Set :=
| device    (* Device memory accessible only from device *)
| unified   (* Unified memory accessible from both host and device *)
| pinned    (* Page-locked system memory accessible from both host and device *)
| host.     (* System memory only accessible from host code *)

#[global] Instance memory_kind_eq_dec : EqDecision memory_kind.
Proof. solve_decision. Defined.

(** An object is referred to by its address; [void*] results are addresses
    as well. [std::size_t] values are only passed along, never computed
    with. *)
Definition address := N.
Definition pointer := N.
Definition size_t := N.

Section memory_resource_hpp.

(** The state the allocators act on, and what they throw. *)
Variable World : Type.
Variable exception : Type.

(** [rmm/cuda_stream_view.hpp] is a header of its own, not embedded here:
    the stream handle type, the value-initialised view [stream_view{}]
    and its member [synchronize()] are parameters. *)
Variable stream_view : Type.
Variable stream_view_default : stream_view.
Variable synchronize : stream_view -> Eff World exception unit.

(** [alignof(std::max_align_t)] *)
Variable default_alignment : size_t.

Local Open Scope eff_scope.
Local Abbreviation M := (Eff World exception).

(** *** [memory_resource<_Kind>]

    An object of a class derived from [memory_resource<_Kind>] (default
    context): its address and its virtual functions. [do_allocate] and
    [do_deallocate] are pure virtual, so every object supplies them;
    [do_is_equal] has a body in the base class, so a derived class
    overrides it ([Some]) or inherits it ([None]). The [const noexcept]
    comparison may read the state but neither changes it nor throws. The
    argument [__other] is passed as the address of the referenced
    object. *)
Record memory_resource (_Kind : memory_kind) : Type := {
  this : address;
  do_allocate : size_t -> size_t -> M pointer;
  do_deallocate : pointer -> size_t -> size_t -> M unit;
  do_is_equal_override : option (address -> World -> bool)
}.

(** [static constexpr memory_kind kind = _Kind;] *)
Definition kind {_Kind} (r : memory_resource _Kind) : memory_kind := _Kind.

Definition allocate {_Kind} (r : memory_resource _Kind)
    (__bytes __alignment : size_t) : M pointer :=
  do_allocate r __bytes __alignment.

Definition deallocate {_Kind} (r : memory_resource _Kind)
    (__p : pointer) (__bytes __alignment : size_t) : M unit :=
  do_deallocate r __p __bytes __alignment.

(** The body of [memory_resource::do_is_equal]: [this == &__other]. *)
Definition memory_resource_do_is_equal (this_ __other : address) : bool :=
  bool_decide (this_ = __other).

(** Virtual dispatch of [do_is_equal]. *)
Definition do_is_equal {_Kind} (r : memory_resource _Kind)
    (__other : address) (w : World) : bool :=
  match do_is_equal_override r with
  | Some f => f __other w
  | None => memory_resource_do_is_equal (this r) __other
  end.

Definition is_equal {_Kind} (r __other : memory_resource _Kind) (w : World) : bool :=
  do_is_equal r (this __other) w.

(** *** [pmr_adaptor]

    [static constexpr bool __is_host_accessible_resource], on the kind
    of the wrapped resource type. *)
Definition __is_host_accessible_resource (k : memory_kind) : bool :=
  match k with
  | host | unified | pinned => true
  | device => false
  end.

(** Objects of classes derived from [std::pmr::memory_resource]:
    - [pmr_adaptor], the final class of the header, holding [__mr_];
      [resource()] is declared in [__pmr_adaptor_base] with result
      [memory_resource<memory_kind::host>*], which fixes the kind;
    - any other class derived from [detail::__pmr_adaptor_base], with
      its own [resource()] and [do_is_equal];
    - any class not derived from [__pmr_adaptor_base]. *)
Inductive pmr_memory_resource : Type :=
| pmr_adaptor (pmr_this : address) (__mr_ : memory_resource host)
| pmr_adaptor_base_derived (pmr_this : address) (resource_ : memory_resource host)
    (do_is_equal_ : address -> World -> bool)
| pmr_unrelated (pmr_this : address) (do_is_equal_ : address -> World -> bool).

Definition pmr_this_of (r : pmr_memory_resource) : address :=
  match r with
  | pmr_adaptor a _ | pmr_adaptor_base_derived a _ _ | pmr_unrelated a _ => a
  end.

(** [dynamic_cast<detail::__pmr_adaptor_base const *>(&__other)]
    followed by the virtual [resource()]: [None] is the null result of
    the cast. *)
Definition dynamic_cast_pmr_adaptor_base (__other : pmr_memory_resource)
    : option (memory_resource host) :=
  match __other with
  | pmr_adaptor _ m => Some m
  | pmr_adaptor_base_derived _ m _ => Some m
  | pmr_unrelated _ _ => None
  end.

(** [pmr_adaptor::do_is_equal], for the adaptor holding [__mr_]. *)
Definition pmr_adaptor_do_is_equal (__mr_ : memory_resource host)
    (__other : pmr_memory_resource) (w : World) : bool :=
  match dynamic_cast_pmr_adaptor_base __other with
  | None => false
  | Some other_resource =>
      bool_decide (this other_resource = this __mr_)
      || is_equal other_resource __mr_ w
  end.

(** [std::pmr::memory_resource::is_equal] calls the virtual
    [do_is_equal]. *)
Definition pmr_is_equal (r __other : pmr_memory_resource) (w : World) : bool :=
  match r with
  | pmr_adaptor _ m => pmr_adaptor_do_is_equal m __other w
  | pmr_adaptor_base_derived _ _ f => f (pmr_this_of __other) w
  | pmr_unrelated _ f => f (pmr_this_of __other) w
  end.

Definition pmr_adaptor_do_allocate (__mr_ : memory_resource host)
    (__bytes __alignment : size_t) : M pointer :=
  allocate __mr_ __bytes __alignment.

Definition pmr_adaptor_do_deallocate (__mr_ : memory_resource host)
    (__p : pointer) (__bytes __alignment : size_t) : M unit :=
  deallocate __mr_ __p __bytes __alignment.

(** *** [stream_ordered_memory_resource<_Kind>]

    What a concrete stream-ordered class has to supply: the two pure
    virtuals the class template declares. It may override [do_is_equal]
    as any other resource may. *)
Record stream_ordered_memory_resource (_Kind : memory_kind) : Type := {
  so_this : address;
  do_allocate_async : size_t -> size_t -> stream_view -> M pointer;
  do_deallocate_async : pointer -> size_t -> size_t -> stream_view -> M unit;
  so_do_is_equal_override : option (address -> World -> bool)
}.

Definition allocate_async {_Kind} (r : stream_ordered_memory_resource _Kind)
    (__bytes __alignment : size_t) (__stream : stream_view) : M pointer :=
  do_allocate_async r __bytes __alignment __stream.

(** The overload without alignment. *)
Definition allocate_async_default {_Kind} (r : stream_ordered_memory_resource _Kind)
    (__bytes : size_t) (__stream : stream_view) : M pointer :=
  do_allocate_async r __bytes default_alignment __stream.

Definition deallocate_async {_Kind} (r : stream_ordered_memory_resource _Kind)
    (__p : pointer) (__bytes __alignment : size_t) (__stream : stream_view) : M unit :=
  do_deallocate_async r __p __bytes __alignment __stream.

Definition deallocate_async_default {_Kind} (r : stream_ordered_memory_resource _Kind)
    (__p : pointer) (__bytes : size_t) (__stream : stream_view) : M unit :=
  do_deallocate_async r __p __bytes default_alignment __stream.

(** [stream_ordered_memory_resource::do_allocate] *)
Definition stream_ordered_do_allocate {_Kind} (r : stream_ordered_memory_resource _Kind)
    (__bytes __alignment : size_t) : M pointer :=
  let __default_stream := stream_view_default in
  let! __p := do_allocate_async r __bytes __alignment __default_stream in
  let! _ := synchronize __default_stream in
  ret __p.

(** [stream_ordered_memory_resource::do_deallocate] *)
Definition stream_ordered_do_deallocate {_Kind} (r : stream_ordered_memory_resource _Kind)
    (__p : pointer) (__bytes __alignment : size_t) : M unit :=
  let __default_stream := stream_view_default in
  let! _ := synchronize __default_stream in
  do_deallocate_async r __p __bytes __alignment __default_stream.

(** The [memory_resource<_Kind>] base subobject of a stream-ordered
    resource: the two base-class pure virtuals are filled by the
    overrides above. *)
Definition as_memory_resource {_Kind} (r : stream_ordered_memory_resource _Kind)
    : memory_resource _Kind :=
  {| this := so_this r;
     do_allocate := stream_ordered_do_allocate r;
     do_deallocate := stream_ordered_do_deallocate r;
     do_is_equal_override := so_do_is_equal_override r |}.

(** The wording of the specification, on the public interface of the
    stream-ordered resource: the async operation on the designated
    default stream plus a synchronisation of that stream. *)
Definition sync_allocate_via_async {_Kind} (r : stream_ordered_memory_resource _Kind)
    (bytes alignment : size_t) : M pointer :=
  let! p := allocate_async r bytes alignment stream_view_default in
  let! _ := synchronize stream_view_default in
  ret p.

Definition sync_deallocate_via_async {_Kind} (r : stream_ordered_memory_resource _Kind)
    (p : pointer) (bytes alignment : size_t) : M unit :=
  let! _ := synchronize stream_view_default in
  deallocate_async r p bytes alignment stream_view_default.

End memory_resource_hpp.

End mr.

(** ** The Cython module of the binding *)

Module binding.

(** The extension types of the module, and the type of [None]. *)
Inductive py_type : Set :=
| NoneType
| MemoryResource
| CudaMemoryResource
| ManagedMemoryResource
| CNMemMemoryResource
| CNMemManagedMemoryResource
| PoolMemoryResource
| FixedSizeMemoryResource
| BinningMemoryResource
| LoggingResourceAdaptor.

#[global] Instance py_type_eq_dec : EqDecision py_type.
Proof. solve_decision. Defined.

(** The exceptions the module raises, and those a C++ exception is
    translated to. *)
Inductive py_exception : Set :=
| TypeError (msg : string)
| AttributeError (msg : string)
| OverflowError (msg : string)
| MemoryError (msg : string)
| RuntimeError (msg : string).

(** A Python value used for a file name: [None], a [str] or a [bytes]
    object, each with its contents. *)
Inductive py_text : Set :=
| py_None
| py_str (s : string)
| py_bytes (b : string).

(** References to Python objects and to C++ objects. A
    [shared_ptr<device_memory_resource_wrapper>] is null or points to a
    wrapper. *)
Definition py_ref := positive.
Definition c_ptr := positive.
Definition shared_ptr := option c_ptr.

(** The wrapper classes the module instantiates with [new], with the
    constructor arguments it passes. *)
Inductive wrapper : Type :=
| cuda_memory_resource_wrapper
| managed_memory_resource_wrapper
| cnmem_memory_resource_wrapper (initial_pool_size : N) (devices : list Z)
| cnmem_managed_memory_resource_wrapper (initial_pool_size : N) (devices : list Z)
| pool_memory_resource_wrapper (upstream : shared_ptr)
    (initial_pool_size maximum_pool_size : N)
| fixed_size_memory_resource_wrapper (upstream : shared_ptr)
    (block_size blocks_to_preallocate : N)
| binning_memory_resource_wrapper (upstream_mr : shared_ptr) (bins : list N)
| logging_resource_adaptor_wrapper (upstream : shared_ptr) (log_file_name : string).

(** Modelled from the spec: the wrapper classes are declared elsewhere in
    the repository. An allocator that sources memory from an upstream
    allocator holds a shared reference to that upstream for its entire
    lifetime. *)
Definition upstream_of (w : wrapper) : shared_ptr :=
  match w with
  | pool_memory_resource_wrapper u _ _
  | fixed_size_memory_resource_wrapper u _ _
  | binning_memory_resource_wrapper u _
  | logging_resource_adaptor_wrapper u _ => u
  | _ => None
  end.

(** A C++ object: the wrapper and, for a logging adaptor, the records it
    has buffered and the records already written to its sink. *)
Record native_object : Type := {
  wrapped : wrapper;
  log_buffer : list string;
  log_sink : list string
}.

(** A Python object of one of the extension types: its reference count,
    its type and the [c_obj] member declared by [MemoryResource]. *)
Record py_object : Type := {
  ob_refcnt : nat;
  ob_type : py_type;
  c_obj : shared_ptr
}.

(** The state the module acts on: the module global [_mr] ([None] is
    Python's [None]), the Python objects, the C++ objects, the C++-side
    default resource and the process environment.

    The constructors of the wrapper classes are declared elsewhere in the
    repository: whether the construction of a given wrapper throws, with
    the C++ objects there are, and the Python exception the throw
    becomes, is the parameter [cxx_new] ([None]: the constructor
    returns). *)
Record module_state : Type := {
  _mr : option py_ref;
  objects : gmap py_ref py_object;
  native : gmap c_ptr native_object;
  default_resource : shared_ptr;
  environ : gmap string string;
  cxx_new : gmap c_ptr native_object -> wrapper -> option py_exception
}.

Definition set__mr (v : option py_ref) (st : module_state) : module_state :=
  {| _mr := v; objects := objects st; native := native st;
     default_resource := default_resource st; environ := environ st;
     cxx_new := cxx_new st |}.

Definition set_objects (f : gmap py_ref py_object -> gmap py_ref py_object)
    (st : module_state) : module_state :=
  {| _mr := _mr st; objects := f (objects st); native := native st;
     default_resource := default_resource st; environ := environ st;
     cxx_new := cxx_new st |}.

Definition set_native (f : gmap c_ptr native_object -> gmap c_ptr native_object)
    (st : module_state) : module_state :=
  {| _mr := _mr st; objects := objects st; native := f (native st);
     default_resource := default_resource st; environ := environ st;
     cxx_new := cxx_new st |}.

Definition set_default_resource_slot (p : shared_ptr) (st : module_state) : module_state :=
  {| _mr := _mr st; objects := objects st; native := native st;
     default_resource := p; environ := environ st; cxx_new := cxx_new st |}.

(** [cdef MemoryResource _mr]: a module-level variable of an extension
    type starts as [None]; no object exists yet. *)
Definition module_load (env : gmap string string)
    (cxx : gmap c_ptr native_object -> wrapper -> option py_exception) : module_state :=
  {| _mr := None; objects := ∅; native := ∅; default_resource := None;
     environ := env; cxx_new := cxx |}.

(** The module as loaded in a process in which every wrapper can be
    constructed. *)
Definition module_init (env : gmap string string) : module_state :=
  module_load env (fun _ _ => None).

Abbreviation M := (Eff module_state py_exception).

Local Open Scope eff_scope.

(** *** Shared ownership of the C++ objects

    A wrapper lives as long as a [shared_ptr] to it does. The holders are
    the [c_obj] members of the live Python objects, the [upstream] members
    of the live wrappers and the default-resource slot; when a holder goes
    away, the wrappers no holder reaches any more are destroyed. *)
Fixpoint upstream_chain (fuel : nat) (h : gmap c_ptr native_object) (p : shared_ptr)
    : list c_ptr :=
  match fuel, p with
  | S fuel', Some a =>
      a :: match h !! a with
           | Some o => upstream_chain fuel' h (upstream_of (wrapped o))
           | None => []
           end
  | _, _ => []
  end.

Definition holders (st : module_state) : list shared_ptr :=
  default_resource st :: ((fun ro => c_obj (snd ro)) <$> map_to_list (objects st)).

Definition owned (st : module_state) : list c_ptr :=
  holders st ≫= upstream_chain (S (size (native st))) (native st).

Definition release_unowned (st : module_state) : module_state :=
  set_native (filter (fun po => fst po ∈ owned st)) st.

(** *** Reference counting of the Python objects *)

Definition incref (o : py_object) : py_object :=
  {| ob_refcnt := S (ob_refcnt o); ob_type := ob_type o; c_obj := c_obj o |}.

Definition decref (o : py_object) : py_object :=
  {| ob_refcnt := pred (ob_refcnt o); ob_type := ob_type o; c_obj := c_obj o |}.

Definition Py_INCREF (r : py_ref) : M unit :=
  fun st =>
    match objects st !! r with
    | Some o => (Return tt, set_objects <[r := incref o]> st)
    | None => (Undefined, st)
    end.

(** Deallocation of an extension-type object destroys its C++ members:
    the [shared_ptr] in [c_obj] gives up its share. *)
Definition tp_dealloc (r : py_ref) (st : module_state) : module_state :=
  release_unowned (set_objects (delete r) st).

Definition Py_DECREF (r : py_ref) : M unit :=
  fun st =>
    match objects st !! r with
    | Some o =>
        if decide (ob_refcnt o <= 1)
        then (Return tt, tp_dealloc r st)
        else (Return tt, set_objects <[r := decref o]> st)
    | None => (Undefined, st)
    end.

Definition Py_XINCREF (v : option py_ref) : M unit :=
  match v with Some r => Py_INCREF r | None => ret tt end.

Definition Py_XDECREF (v : option py_ref) : M unit :=
  match v with Some r => Py_DECREF r | None => ret tt end.

(** [global _mr; _mr = v]: the new value is retained, the old one
    released. *)
Definition assign__mr (v : option py_ref) : M unit :=
  let! _ := Py_XINCREF v in
  let! st := get in
  let old := _mr st in
  let! _ := modify (set__mr v) in
  Py_XDECREF old.

(** A reference owned for the duration of [body] (a temporary or a local
    variable), released when [body] returns or raises. *)
Definition with_owned {A} (r : py_ref) (body : M A) : M A :=
  fun st =>
    match body st with
    | (Return a, st') => (let! _ := Py_DECREF r in ret a) st'
    | (Raise e, st') => (let! _ := Py_DECREF r in raise e) st'
    | (Undefined, st') => (Undefined, st')
    end.

(** *** Object construction *)

(** Allocation of a fresh object: one reference, owned by the caller;
    [c_obj] is default-constructed, hence null. *)
Definition tp_new (t : py_type) : M py_ref :=
  fun st =>
    let r := fresh (dom (objects st)) in
    (Return r,
     set_objects <[r := {| ob_refcnt := 1; ob_type := t; c_obj := None |}]> st).

(** [T(args)]: allocate, run [__cinit__]; an exception in [__cinit__]
    releases the new object. [__init__] is [pass] in every class. *)
Definition construct (t : py_type) (__cinit__ : py_ref -> M unit) : M py_ref :=
  let! self := tp_new t in
  fun st =>
    match __cinit__ self st with
    | (Return _, st') => (Return self, st')
    | (Raise e, st') => (let! _ := Py_DECREF self in raise e) st'
    | (Undefined, st') => (Undefined, st')
    end.

(** [x.c_obj] for [x] typed [MemoryResource]: reading the C member
    through [None] is not checked. *)
Definition read_c_obj (v : option py_ref) : M shared_ptr :=
  fun st =>
    match v with
    | Some r =>
        match objects st !! r with
        | Some o => (Return (c_obj o), st)
        | None => (Undefined, st)
        end
    | None => (Undefined, st)
    end.

(** [new W(...)]: the constructor throws, and nothing is allocated, or
    it returns and the new object exists. *)
Definition new_wrapper (w : wrapper) : M c_ptr :=
  fun st =>
    match cxx_new st (native st) w with
    | Some e => (Raise e, st)
    | None =>
        let p := fresh (dom (native st)) in
        (Return p,
         set_native <[p := {| wrapped := w; log_buffer := []; log_sink := [] |}]> st)
    end.

(** *** Conversion of Python arguments to C++ values

    A Python [int] passed for a [size_t] or an [int] parameter is
    converted when the call is entered and raises [OverflowError] out of
    range ([size_t] of 64 bits, [int] of 32); a [vector[int]] is converted
    element by element. *)
Definition SIZE_MAX : Z := 2 ^ 64 - 1.
Definition INT_MIN : Z := - 2 ^ 31.
Definition INT_MAX : Z := 2 ^ 31 - 1.

Definition to_size_t (z : Z) : M N :=
  if decide (z < 0)%Z then raise (OverflowError "can't convert negative value to size_t")
  else if decide (SIZE_MAX < z)%Z
       then raise (OverflowError "Python int too large to convert to C size_t")
       else ret (Z.to_N z).

Definition to_int (z : Z) : M Z :=
  if decide (INT_MIN <= z <= INT_MAX)%Z then ret z
  else raise (OverflowError "value too large to convert to int").

Fixpoint to_vector_int (l : list Z) : M (list Z) :=
  match l with
  | [] => ret []
  | z :: l' =>
      let! i := to_int z in
      let! v := to_vector_int l' in
      ret (i :: v)
  end.

(** A Python object passed for a [std::string] parameter. The module
    carries no directive that sets a string encoding, so the default
    conversion applies: [bytes] are copied, anything else is refused. *)
Definition str_refused : string := "expected bytes, str found".

Definition to_std_string (v : py_text) : M string :=
  match v with
  | py_bytes b => ret b
  | py_str _ => raise (TypeError str_refused)
  | py_None => raise (TypeError "expected bytes, NoneType found")
  end.

(** [self.c_obj.reset(p)] *)
Definition c_obj_reset (self : py_ref) (p : c_ptr) : M unit :=
  fun st =>
    match objects st !! self with
    | Some o =>
        (Return tt,
         release_unowned
           (set_objects <[self := {| ob_refcnt := ob_refcnt o; ob_type := ob_type o;
                                     c_obj := Some p |}]> st))
    | None => (Undefined, st)
    end.

Definition cinit_with (w : wrapper) (self : py_ref) : M unit :=
  let! p := new_wrapper w in
  c_obj_reset self p.

(** Modelled from the spec: the base class [MemoryResource] is declared
    elsewhere in the repository; it declares the member [c_obj] and
    constructing it installs no allocator, so [c_obj] stays null. *)
Definition MemoryResource_new : M py_ref :=
  construct MemoryResource (fun _ => ret tt).

Definition CudaMemoryResource_new : M py_ref :=
  construct CudaMemoryResource (cinit_with cuda_memory_resource_wrapper).

Definition ManagedMemoryResource_new : M py_ref :=
  construct ManagedMemoryResource (cinit_with managed_memory_resource_wrapper).

Definition CNMemMemoryResource_new (initial_pool_size : Z) (devices : list Z) : M py_ref :=
  construct CNMemMemoryResource (fun self =>
    let! initial_pool_size := to_size_t initial_pool_size in
    let! devices := to_vector_int devices in
    cinit_with (cnmem_memory_resource_wrapper initial_pool_size devices) self).

Definition CNMemManagedMemoryResource_new (initial_pool_size : Z) (devices : list Z)
    : M py_ref :=
  construct CNMemManagedMemoryResource (fun self =>
    let! initial_pool_size := to_size_t initial_pool_size in
    let! devices := to_vector_int devices in
    cinit_with (cnmem_managed_memory_resource_wrapper initial_pool_size devices) self).

Definition PoolMemoryResource_new (upstream : option py_ref)
    (initial_pool_size maximum_pool_size : Z) : M py_ref :=
  construct PoolMemoryResource (fun self =>
    let! initial_pool_size := to_size_t initial_pool_size in
    let! maximum_pool_size := to_size_t maximum_pool_size in
    let! u := read_c_obj upstream in
    cinit_with (pool_memory_resource_wrapper u initial_pool_size maximum_pool_size) self).

Definition FixedSizeMemoryResource_new (upstream : option py_ref)
    (block_size blocks_to_preallocate : Z) : M py_ref :=
  construct FixedSizeMemoryResource (fun self =>
    let! block_size := to_size_t block_size in
    let! blocks_to_preallocate := to_size_t blocks_to_preallocate in
    let! u := read_c_obj upstream in
    cinit_with (fixed_size_memory_resource_wrapper u block_size blocks_to_preallocate) self).

Definition BinningMemoryResource_new (upstream_mr : option py_ref) : M py_ref :=
  construct BinningMemoryResource (fun self =>
    let! u := read_c_obj upstream_mr in
    cinit_with (binning_memory_resource_wrapper u []) self).

(** [os.getenv(name)]: [None] or a [str]. *)
Definition os_getenv (name : string) : M py_text :=
  fun st =>
    (Return match environ st !! name with Some s => py_str s | None => py_None end, st).

(** Truth value of [None], a [str] or [bytes]: [not x]. *)
Definition py_not (x : py_text) : bool :=
  match x with
  | py_None => true
  | py_str s | py_bytes s => bool_decide (s = EmptyString)
  end.

Definition log_file_message : string :=
  "RMM log file must be specified either using log_file_name= argument or RMM_LOG_FILE environment variable".

(** [LoggingResourceAdaptor.__cinit__]. The object [log_file_name] is
    converted for the [string] parameter of the C++ constructor before
    the call is made. *)
Definition LoggingResourceAdaptor___cinit__ (upstream : option py_ref)
    (log_file_name : py_text) (self : py_ref) : M unit :=
  let! log_file_name :=
    match log_file_name with
    | py_None =>
        let! log_file_name := os_getenv "RMM_LOG_FILE" in
        if py_not log_file_name
        then raise (TypeError log_file_message)
        else ret log_file_name
    | _ => ret log_file_name
    end in
  let! name := to_std_string log_file_name in
  let! u := read_c_obj upstream in
  cinit_with (logging_resource_adaptor_wrapper u name) self.

Definition LoggingResourceAdaptor_new (upstream : option py_ref)
    (log_file_name : py_text) : M py_ref :=
  construct LoggingResourceAdaptor (LoggingResourceAdaptor___cinit__ upstream log_file_name).

(** Modelled from the spec: [logging_resource_adaptor_wrapper::flush] is
    declared elsewhere in the repository; [flush()] forces the buffered
    records to the sink. *)
Definition flushed (o : native_object) : native_object :=
  {| wrapped := wrapped o; log_buffer := []; log_sink := log_sink o ++ log_buffer o |}.

(** [LoggingResourceAdaptor.flush] *)
Definition LoggingResourceAdaptor_flush (self : py_ref) : M unit :=
  let! p := read_c_obj (Some self) in
  fun st =>
    match p with
    | Some a =>
        match native st !! a with
        | Some o => (Return tt, set_native <[a := flushed o]> st)
        | None => (Undefined, st)
        end
    | None => (Undefined, st)
    end.

(** Modelled from the spec: the method [add_bin] of the C++ wrapper is
    declared elsewhere in the repository; it appends a bin, bins must be
    added in increasing order of size, and adding one out of order is a
    configuration error. *)
Definition bin_added (bins : list N) (allocation_size : N) : option (list N) :=
  if forallb (fun b => b <? allocation_size)%N bins
  then Some (bins ++ [allocation_size])
  else None.

(** [BinningMemoryResource.add_bin] *)
Definition add_bin (self : py_ref) (allocation_size : Z) : M unit :=
  let! allocation_size := to_size_t allocation_size in
  let! p := read_c_obj (Some self) in
  fun st =>
    match p with
    | Some a =>
        match native st !! a with
        | Some {| wrapped := binning_memory_resource_wrapper u bins;
                  log_buffer := b; log_sink := k |} =>
            match bin_added bins allocation_size with
            | Some bins' =>
                (Return tt,
                 set_native <[a := {| wrapped := binning_memory_resource_wrapper u bins';
                                      log_buffer := b; log_sink := k |}]> st)
            | None => (Raise (RuntimeError "bins must be added in increasing order"), st)
            end
        | _ => (Undefined, st)
        end
    | None => (Undefined, st)
    end.

(** *** The module-level functions *)

(** Modelled from the spec: the C++ function [set_default_resource] is
    declared elsewhere in the repository; it installs the allocator in
    the process-wide slot, which shares ownership of it, and gives up the
    share in the allocator installed before. *)
Definition set_default_resource (p : shared_ptr) : M unit :=
  modify (fun st => release_unowned (set_default_resource_slot p st)).

Definition _set_default_resource (mr : option py_ref) : M unit :=
  let! _ := assign__mr mr in
  let! st := get in
  let! p := read_c_obj (_mr st) in
  set_default_resource p.

(** [type(_mr)] *)
Definition get_default_resource_type : M py_type :=
  fun st =>
    match _mr st with
    | Some r =>
        match objects st !! r with
        | Some o => (Return (ob_type o), st)
        | None => (Undefined, st)
        end
    | None => (Return NoneType, st)
    end.

(** [_mr.c_obj.get() is not NULL] *)
Definition is_initialized : M bool :=
  let! st := get in
  let! p := read_c_obj (_mr st) in
  ret (bool_decide (p <> None)).

(** [_mr.flush()]: [_mr] is typed [MemoryResource], which has no method
    [flush], so the call is an attribute lookup on the object; only
    [LoggingResourceAdaptor] defines [flush]. *)
Definition _flush_logs : M unit :=
  fun st =>
    match _mr st with
    | Some r =>
        match objects st !! r with
        | Some o =>
            if decide (ob_type o = LoggingResourceAdaptor)
            then LoggingResourceAdaptor_flush r st
            else (Raise (AttributeError "object has no attribute 'flush'"), st)
        | None => (Undefined, st)
        end
    | None => (Raise (AttributeError "'NoneType' object has no attribute 'flush'"), st)
    end.

(** The argument [devices]: [None], an [int] or a list of [int]. *)
Inductive py_devices : Type :=
| devices_None
| devices_int (d : Z)
| devices_list (l : list Z).

(** [log_file_name.encode()]: a [str] gives its bytes; [None] and
    [bytes] have no method [encode]. *)
Definition str_encode (s : py_text) : M py_text :=
  match s with
  | py_str s => ret (py_bytes s)
  | py_None => raise (AttributeError "'NoneType' object has no attribute 'encode'")
  | py_bytes _ => raise (AttributeError "'bytes' object has no attribute 'encode'")
  end.

Definition _initialize (pool_allocator managed_memory : bool)
    (initial_pool_size : option Z) (devices : py_devices)
    (logging : bool) (log_file_name : py_text) : M unit :=
  let! empty := MemoryResource_new in
  let! _ := with_owned empty (assign__mr (Some empty)) in
  let typ_args : M py_ref :=
    if negb pool_allocator then
      if negb managed_memory
      then CudaMemoryResource_new
      else ManagedMemoryResource_new
    else
      let initial_pool_size :=
        match initial_pool_size with None => 0%Z | Some n => n end in
      let devices :=
        match devices with
        | devices_None => [0%Z]
        | devices_int d => [d]
        | devices_list l => l
        end in
      if negb managed_memory
      then CNMemMemoryResource_new initial_pool_size devices
      else CNMemManagedMemoryResource_new initial_pool_size devices in
  let! mr :=
    if logging then
      let! upstream := typ_args in
      with_owned upstream
        (let! name := str_encode log_file_name in
         LoggingResourceAdaptor_new (Some upstream) name)
    else typ_args in
  with_owned mr (_set_default_resource (Some mr)).

End binding.

(** ** Predicates on the state of the binding *)

Module logic.
Import binding.

(** *** Hoare triples for [M]

    [triple P m Q E]: from a state satisfying [P], if [m] returns [a] the
    final state satisfies [Q a], and if it raises the final state
    satisfies [E]. *)
Definition triple {A} (P : module_state -> Prop) (m : M A)
    (Q : A -> module_state -> Prop) (E : module_state -> Prop) : Prop :=
  forall st, P st ->
    match m st with
    | (Return a, st') => Q a st'
    | (Raise _, st') => E st'
    | (Undefined, _) => True
    end.

Definition empty_resource : py_object :=
  {| ob_refcnt := 1; ob_type := MemoryResource; c_obj := None |}.

(** [r] is the installed default and is an empty [MemoryResource]. *)
Definition kept (r : py_ref) (st : module_state) : Prop :=
  _mr st = Some r /\ objects st !! r = Some empty_resource.

(** [m] leaves the installed empty resource [r] alone, whether it returns
    (a value satisfying [phi]) or raises. *)
Definition keeps {A} (r : py_ref) (m : M A) (phi : A -> Prop) : Prop :=
  triple (kept r) m (fun a st => kept r st /\ phi a) (kept r).

Definition no_raise {A} (m : M A) : Prop :=
  triple (fun _ => True) m (fun _ _ => True) (fun _ => False).

(** The registry refers to a live object, if to any. *)
Definition registry_wf (st : module_state) : Prop :=
  forall r, _mr st = Some r -> is_Some (objects st !! r).

(** The reference the registry itself holds to an object. *)
Definition registry_share (st : module_state) (x : py_ref) : nat :=
  if decide (_mr st = Some x) then 1 else 0.

(** [x] is the object [o'] in [st'] as it was the object [o] in [st]:
    same type, same [c_obj], the wrapper it points to untouched, and the
    same number of references held outside the registry. *)
Definition carried_over (st st' : module_state) (x : py_ref) (o o' : py_object) : Prop :=
  ob_type o' = ob_type o
  /\ c_obj o' = c_obj o
  /\ ob_refcnt o' = ob_refcnt o - registry_share st x + registry_share st' x
  /\ forall p, c_obj o = Some p -> native st' !! p = native st !! p.

End logic.

(** ** Concrete resources and states *)

Module examples.
Import mr binding.

Local Open Scope eff_scope.

(** A world that records what happened on which stream. *)
Inductive event : Type :=
| allocated (p : pointer) (bytes alignment : size_t) (stream : N)
| deallocated (p : pointer) (bytes alignment : size_t) (stream : N)
| synchronized (stream : N).

Definition trace : Type := list event.

(** Stream handles are numbers, the default stream is stream 0, and a
    synchronisation is recorded. *)
Definition synchronize_recorded (stream : N) : Eff trace string unit :=
  modify (fun w => w ++ [synchronized stream]).

(** A stream-ordered device resource that hands out the next free address
    and refuses requests above its capacity. *)
Definition bump_capacity : size_t := 4096%N.

Definition next_free (w : trace) : pointer :=
  fold_right (fun ev acc =>
                match ev with
                | allocated p bytes _ _ => N.max acc (p + bytes)
                | _ => acc
                end) 0%N w.

Definition bump_resource : stream_ordered_memory_resource trace string N device :=
  {| so_this := 7%N;
     do_allocate_async := fun bytes alignment stream =>
       if (bump_capacity <? bytes)%N then raise "bad_alloc"
       else
         let! w := get in
         let p := next_free w in
         let! _ := modify (fun w => w ++ [allocated p bytes alignment stream]) in
         ret p;
     do_deallocate_async := fun p bytes alignment stream =>
       modify (fun w => w ++ [deallocated p bytes alignment stream]);
     so_do_is_equal_override := None |}.

(** A host resource that inherits [do_is_equal]. *)
Definition plain_host_resource (a : address) : memory_resource trace string host :=
  {| this := a;
     do_allocate := fun _ _ => raise "bad_alloc";
     do_deallocate := fun _ _ _ => ret tt;
     do_is_equal_override := None |}.

(** A host resource that overrides [do_is_equal]: it is equal to the
    resources drawing on the same pool. *)
Definition pooled_host_resource (a : address) (pool : list address)
    : memory_resource trace string host :=
  {| this := a;
     do_allocate := fun _ _ => raise "bad_alloc";
     do_deallocate := fun _ _ _ => ret tt;
     do_is_equal_override := Some (fun other _ => bool_decide (other ∈ pool)) |}.

(** The binding after [_initialize()] with its default arguments, and then
    with a second resource constructed by a caller who keeps it. *)
Definition no_environment : gmap string string := ∅.

Definition after_initialize : module_state :=
  snd (_initialize false false None (devices_int 0) false py_None
         (module_init no_environment)).

Definition with_second_resource : module_state :=
  snd (ManagedMemoryResource_new after_initialize).

(** The freshly loaded binding after a caller has constructed two
    resources and keeps both. *)
Definition two_resources : module_state :=
  snd (ManagedMemoryResource_new (snd (CudaMemoryResource_new (module_init no_environment)))).

(** The binding with a logging adaptor installed that has buffered two
    records. *)
Definition logging_environment : gmap string string := {[ "RMM_LOG_FILE" := "rmm.log" ]}.

Definition logging_installed : module_state :=
  set_native
    (alter (fun o => {| wrapped := wrapped o;
                        log_buffer := ["allocate,256"; "free,256"];
                        log_sink := log_sink o |}) 2%positive)
    (snd (_initialize false false None (devices_int 0) true (py_str "rmm.log")
            (module_init logging_environment))).

(** A process in which the C++ constructor of the logging adaptor throws
    for an empty destination and every other constructor returns, and
    the binding loaded there after a caller has constructed a resource. *)
Definition destination_required (h : gmap c_ptr native_object) (w : wrapper)
    : option py_exception :=
  match w with
  | logging_resource_adaptor_wrapper _ EmptyString =>
      Some (RuntimeError "no log destination")
  | _ => None
  end.

Definition one_resource : module_state :=
  snd (CudaMemoryResource_new (module_load no_environment destination_required)).

End examples.

(** ** What [_initialize] is asked to install *)

Module selection.
Import binding.

(** The class [_initialize] binds to [typ], by [pool_allocator] and
    [managed_memory]. *)
Definition selected_type (pool_allocator managed_memory : bool) : py_type :=
  if negb pool_allocator then
    if negb managed_memory then CudaMemoryResource else ManagedMemoryResource
  else
    if negb managed_memory then CNMemMemoryResource else CNMemManagedMemoryResource.

(** The values a [size_t] and an [int] parameter accept. *)
Definition size_t_range (z : Z) : Prop := (0 <= z <= SIZE_MAX)%Z.
Definition int_range (z : Z) : Prop := (INT_MIN <= z <= INT_MAX)%Z.

(** The tuple [args] as [_initialize] prepares it for the pool classes. *)
Definition prepared_pool_size (initial_pool_size : option Z) : Z :=
  match initial_pool_size with None => 0%Z | Some n => n end.

Definition prepared_devices (devices : py_devices) : list Z :=
  match devices with
  | devices_None => [0%Z]
  | devices_int d => [d]
  | devices_list l => l
  end.

(** The arguments of [_initialize] are accepted by the parameters of the
    class it selects: nothing is asked without the pool allocator. *)
Definition args_convert (pool_allocator : bool) (initial_pool_size : option Z)
    (devices : py_devices) : Prop :=
  pool_allocator = true ->
  size_t_range (prepared_pool_size initial_pool_size)
  /\ Forall int_range (prepared_devices devices).

(** The wrapper the call of [typ] on [args] creates, with [args] as
    [_initialize] prepares them and the class converts them. *)
Definition selected_wrapper (pool_allocator managed_memory : bool)
    (initial_pool_size : option Z) (devices : py_devices) : wrapper :=
  if negb pool_allocator then
    if negb managed_memory
    then cuda_memory_resource_wrapper
    else managed_memory_resource_wrapper
  else
    let initial_pool_size := Z.to_N (prepared_pool_size initial_pool_size) in
    let devices := prepared_devices devices in
    if negb managed_memory
    then cnmem_memory_resource_wrapper initial_pool_size devices
    else cnmem_managed_memory_resource_wrapper initial_pool_size devices.

(** The C++ constructor of [w] returns, whatever C++ objects there are;
    it throws what becomes the exception [e], whatever C++ objects there
    are. *)
Definition constructible (st : module_state) (w : wrapper) : Prop :=
  forall h, cxx_new st h w = None.

Definition refused (st : module_state) (w : wrapper) (e : py_exception) : Prop :=
  forall h, cxx_new st h w = Some e.

(** The call of [typ] on [args] in [_initialize]. *)
Definition typ_args (pool_allocator managed_memory : bool)
    (initial_pool_size : option Z) (devices : py_devices) : M py_ref :=
  if negb pool_allocator then
    if negb managed_memory then CudaMemoryResource_new else ManagedMemoryResource_new
  else
    if negb managed_memory
    then CNMemMemoryResource_new (prepared_pool_size initial_pool_size)
           (prepared_devices devices)
    else CNMemManagedMemoryResource_new (prepared_pool_size initial_pool_size)
           (prepared_devices devices).

(** [_initialize] from its second statement on, with [make] for the call
    of [typ] on [args]. *)
Definition initialize_from (make : M py_ref) (logging : bool) (log_file_name : py_text)
    : M unit :=
  (let! mr :=
     if logging then
       let! upstream := make in
       with_owned upstream
         (let! name := str_encode log_file_name in
          LoggingResourceAdaptor_new (Some upstream) name)
     else make in
   with_owned mr (_set_default_resource (Some mr)))%eff.

(** [make] has constructed, from [st], the object [r] of type [t] around
    a new wrapper [w] at [p], and has left everything else alone. *)
Definition made (st : module_state) (t : py_type) (w : wrapper) (r : py_ref) (p : c_ptr)
    (st' : module_state) : Prop :=
  objects st !! r = None
  /\ native st !! p = None
  /\ objects st' = <[r := {| ob_refcnt := 1; ob_type := t; c_obj := Some p |}]> (objects st)
  /\ _mr st' = _mr st
  /\ default_resource st' = default_resource st
  /\ native st' !! p = Some {| wrapped := w; log_buffer := []; log_sink := [] |}
  /\ cxx_new st' = cxx_new st
  /\ forall x ox q, objects st !! x = Some ox -> c_obj ox = Some q ->
       is_Some (native st !! q) -> native st' !! q = native st !! q.

(** A Python object just constructed around the wrapper at [p], and a
    wrapper just created. *)
Definition constructed (t : py_type) (p : c_ptr) : py_object :=
  {| ob_refcnt := 1; ob_type := t; c_obj := Some p |}.

Definition created (w : wrapper) : native_object :=
  {| wrapped := w; log_buffer := []; log_sink := [] |}.

(** The registry refers to a live object. *)
Definition registry_set (st : module_state) : Prop :=
  exists r o, _mr st = Some r /\ objects st !! r = Some o.

(** The messages of the [AttributeError] raised by [None.encode()] and by
    [encode] on a [bytes] object. *)
Definition encode_message : string := "'NoneType' object has no attribute 'encode'".

Definition bytes_encode_message : string := "'bytes' object has no attribute 'encode'".

(** The message of the [AttributeError] raised by [_mr.flush()] on a
    resource that is no logging adaptor. *)
Definition flush_message : string := "object has no attribute 'flush'".

(** [run] is the result of constructing, in [st], a resource of type [t]
    over the upstream object [up]: a new object holding one reference and
    a new wrapper [w]; nothing else about the Python objects changes, in
    particular [up] gains no reference, and the registry is as before. *)
Definition constructed_over (st : module_state) (up : py_ref) (oup : py_object)
    (t : py_type) (w : wrapper) (run : outcome py_exception py_ref * module_state) : Prop :=
  exists r p,
    fst run = Return r
    /\ objects st !! r = None
    /\ native st !! p = None
    /\ objects (snd run) = <[r := constructed t p]> (objects st)
    /\ objects (snd run) !! up = Some oup
    /\ native (snd run) !! p = Some (created w)
    /\ (forall q, c_obj oup = Some q -> is_Some (native st !! q) ->
          native (snd run) !! q = native st !! q)
    /\ _mr (snd run) = _mr st
    /\ default_resource (snd run) = default_resource st.

(** [run] is the result of constructing, in [st], a resource of type [t]
    that has no upstream: a new object holding one reference and a new
    wrapper [w]; the other Python objects and the registry are as
    before. *)
Definition constructed_alone (st : module_state) (t : py_type) (w : wrapper)
    (run : outcome py_exception py_ref * module_state) : Prop :=
  exists r p,
    fst run = Return r
    /\ objects st !! r = None
    /\ native st !! p = None
    /\ objects (snd run) = <[r := constructed t p]> (objects st)
    /\ native (snd run) !! p = Some (created w)
    /\ _mr (snd run) = _mr st
    /\ default_resource (snd run) = default_resource st.

(** [run] is the result of a construction, in [st], that raised [e]: the
    object allocated for it is gone again, and the other Python objects
    and the registry are as before. *)
Definition raised (st : module_state) (e : py_exception)
    (run : outcome py_exception py_ref * module_state) : Prop :=
  fst run = Raise e
  /\ objects (snd run) = objects st
  /\ _mr (snd run) = _mr st
  /\ default_resource (snd run) = default_resource st.

End selection.

(** ** The allocator contract: theorems *)

Module contract.
Import mr.

Section contract.

Variable World : Type.
Variable exception : Type.
Variable stream_view : Type.
Variable stream_view_default : stream_view.
Variable synchronize : stream_view -> Eff World exception unit.
Variable default_alignment : size_t.

Local Abbreviation memory_resource := (mr.memory_resource World exception).
Local Abbreviation pmr_memory_resource := (mr.pmr_memory_resource World exception).
Local Abbreviation stream_ordered_memory_resource :=
  (mr.stream_ordered_memory_resource World exception stream_view).

(** The inherited comparison is the comparison of addresses. *)
Lemma is_equal_inherited {K} (r other : memory_resource K) (w : World) :
  do_is_equal_override r = None ->
  is_equal r other w = bool_decide (this r = this other).
Proof.
  intros Hnone. unfold is_equal, do_is_equal. now rewrite Hnone.
Qed.

(** C3: for a resource that does not override [do_is_equal],
    [is_equal(r)] is true exactly when [r] is the very same object; in
    particular it is reflexive, and false for a distinct object. *)
Theorem is_equal_default_is_identity {K} (r other : memory_resource K) (w : World) :
  do_is_equal_override r = None ->
  (is_equal r other w = true <-> this r = this other)
  /\ is_equal r r w = true
  /\ (this r <> this other -> is_equal r other w = false).
Proof.
  intros Hnone. rewrite !(is_equal_inherited _ _ _ Hnone).
  split; [apply bool_decide_eq_true |].
  split; [now apply bool_decide_eq_true |].
  intros Hne. now apply bool_decide_eq_false.
Qed.

(** What [pmr_adaptor::do_is_equal] computes against another adaptor:
    the other adaptor's resource is compared with this adaptor's. *)
Lemma pmr_adaptor_is_equal_adaptor (pa pb : address) (a b : memory_resource host)
    (w : World) :
  pmr_is_equal (pmr_adaptor pa a) (pmr_adaptor pb b) w
  = bool_decide (this b = this a) || is_equal b a w.
Proof. reflexivity. Qed.

(** C2: two adaptors whose wrapped resources are the same object, or
    compare equal to each other under [is_equal], compare equal to each
    other. *)
Theorem pmr_adaptors_of_equal_resources_are_equal (pa pb : address)
    (a b : memory_resource host) (w : World) :
  this a = this b \/ (is_equal a b w = true /\ is_equal b a w = true) ->
  pmr_is_equal (pmr_adaptor pa a) (pmr_adaptor pb b) w = true
  /\ pmr_is_equal (pmr_adaptor pb b) (pmr_adaptor pa a) w = true.
Proof.
  intros Heq. rewrite !pmr_adaptor_is_equal_adaptor.
  destruct Heq as [Hsame | [Hab Hba]].
  - split; apply orb_true_iff; left; now apply bool_decide_eq_true.
  - split; apply orb_true_iff; right; assumption.
Qed.

(** C10: [pmr_adaptor]'s [is_equal] is false against every resource not
    derived from the adaptor base, and true exactly when the other
    resource is such an adaptor whose wrapped resource is the same
    object as, or compares equal to, this adaptor's. *)
Theorem pmr_adaptor_is_equal_characterised (pa : address) (a : memory_resource host)
    (w : World) :
  (forall po f,
      pmr_is_equal (pmr_adaptor pa a) (@pmr_unrelated World exception po f) w = false)
  /\ (forall other,
        pmr_is_equal (pmr_adaptor pa a) other w = true <->
        exists m, dynamic_cast_pmr_adaptor_base other = Some m
                  /\ (this m = this a \/ is_equal m a w = true)).
Proof.
  split; [reflexivity |].
  intros other. cbn [pmr_is_equal]. unfold pmr_adaptor_do_is_equal.
  destruct (dynamic_cast_pmr_adaptor_base other) as [m |].
  - rewrite orb_true_iff, bool_decide_eq_true. split.
    + intros H. now exists m.
    + intros (m' & Hm & H). now inversion Hm; subst.
  - split; [discriminate |]. intros (m & Hm & _). discriminate.
Qed.

(** C5, as amended: a resource declares exactly one kind, the template
    argument, and that is one of the four enumerators, [host]
    included. *)
Theorem kind_is_one_of_four {K} (r : memory_resource K) :
  kind r = K
  /\ (forall k, kind r = k -> k = K)
  /\ (kind r = device \/ kind r = unified \/ kind r = pinned \/ kind r = host).
Proof.
  unfold kind. split; [reflexivity |]. split; [now intros k <- |].
  destruct K; auto.
Qed.

(** The order of the steps and the state each one sees: the allocation
    runs first and the stream is synchronised only if it returned; the
    deallocation runs on the state the synchronisation left. *)
Lemma stream_ordered_allocate_steps {K} (r : stream_ordered_memory_resource K)
    (bytes alignment : size_t) (w : World) :
  allocate (as_memory_resource stream_view_default synchronize r) bytes alignment w
  = match allocate_async r bytes alignment stream_view_default w with
    | (Return q, w1) =>
        match synchronize stream_view_default w1 with
        | (Return _, w2) => (Return q, w2)
        | (Raise e, w2) => (Raise e, w2)
        | (Undefined, w2) => (Undefined, w2)
        end
    | (Raise e, w1) => (Raise e, w1)
    | (Undefined, w1) => (Undefined, w1)
    end.
Proof.
  unfold allocate, allocate_async, as_memory_resource, do_allocate.
  unfold stream_ordered_do_allocate, bind, ret.
  destruct (do_allocate_async r bytes alignment stream_view_default w) as [[q | e |] w1];
    [| reflexivity | reflexivity].
  now destruct (synchronize stream_view_default w1) as [[[] | e |] w2].
Qed.

Lemma stream_ordered_deallocate_steps {K} (r : stream_ordered_memory_resource K)
    (p : pointer) (bytes alignment : size_t) (w : World) :
  deallocate (as_memory_resource stream_view_default synchronize r) p bytes alignment w
  = match synchronize stream_view_default w with
    | (Return _, w1) => deallocate_async r p bytes alignment stream_view_default w1
    | (Raise e, w1) => (Raise e, w1)
    | (Undefined, w1) => (Undefined, w1)
    end.
Proof.
  unfold deallocate, deallocate_async, as_memory_resource, do_deallocate.
  unfold stream_ordered_do_deallocate, bind.
  now destruct (synchronize stream_view_default w) as [[[] | e |] w1].
Qed.

(** C1: the synchronous [allocate] and [deallocate] a stream-ordered
    resource inherits are the asynchronous operations on the default
    stream together with a synchronisation of that stream: [allocate]
    returns the pointer [allocate_async] returned once the stream is
    synchronised, [deallocate] synchronises and then deallocates
    asynchronously. The two asynchronous virtuals are all a concrete class
    has to supply to be a [memory_resource] of its kind. *)
Theorem stream_ordered_sync_is_async_plus_synchronize {K}
    (r : stream_ordered_memory_resource K)
    (p : pointer) (bytes alignment : size_t) (w : World) :
  let base := as_memory_resource stream_view_default synchronize r in
  allocate base bytes alignment w
  = sync_allocate_via_async stream_view_default synchronize r bytes alignment w
  /\ deallocate base p bytes alignment w
    = sync_deallocate_via_async stream_view_default synchronize r p bytes alignment w
  /\ allocate base bytes alignment w
    = match allocate_async r bytes alignment stream_view_default w with
      | (Return q, w1) =>
          match synchronize stream_view_default w1 with
          | (Return _, w2) => (Return q, w2)
          | (Raise e, w2) => (Raise e, w2)
          | (Undefined, w2) => (Undefined, w2)
          end
      | (Raise e, w1) => (Raise e, w1)
      | (Undefined, w1) => (Undefined, w1)
      end
  /\ deallocate base p bytes alignment w
    = match synchronize stream_view_default w with
      | (Return _, w1) => deallocate_async r p bytes alignment stream_view_default w1
      | (Raise e, w1) => (Raise e, w1)
      | (Undefined, w1) => (Undefined, w1)
      end
  /\ this base = so_this r
  /\ kind base = K
  /\ do_is_equal_override base = so_do_is_equal_override r.
Proof.
  intros base. subst base.
  split; [reflexivity |]. split; [reflexivity |].
  split; [apply stream_ordered_allocate_steps |].
  split; [apply stream_ordered_deallocate_steps |].
  repeat split.
Qed.

End contract.

Import examples.

Local Open Scope N_scope.

Example bump_allocate_synchronizes :
  allocate (as_memory_resource 0%N synchronize_recorded bump_resource) 256 16 []
  = (Return 0%N, [allocated 0 256 16 0; synchronized 0]).
Proof. reflexivity. Qed.

Example bump_allocate_failure_propagates :
  allocate (as_memory_resource 0%N synchronize_recorded bump_resource) 8192 16 []
  = (Raise "bad_alloc", []).
Proof. reflexivity. Qed.

Example bump_deallocate_synchronizes_first :
  deallocate (as_memory_resource 0%N synchronize_recorded bump_resource) 0 256 16
    [allocated 0 256 16 0; synchronized 0]
  = (Return tt,
     [allocated 0 256 16 0; synchronized 0; synchronized 0; deallocated 0 256 16 0]).
Proof. reflexivity. Qed.

Lemma is_equal_default_is_identity_witness :
  do_is_equal_override (plain_host_resource 1) = None
  /\ ((is_equal (plain_host_resource 1) (plain_host_resource 2) [] = true
       <-> this (plain_host_resource 1) = this (plain_host_resource 2))
      /\ is_equal (plain_host_resource 1) (plain_host_resource 1) [] = true
      /\ (this (plain_host_resource 1) <> this (plain_host_resource 2) ->
          is_equal (plain_host_resource 1) (plain_host_resource 2) [] = false)).
Proof.
  split; [reflexivity |].
  apply (@is_equal_default_is_identity trace string host
           (plain_host_resource 1) (plain_host_resource 2) []).
  reflexivity.
Defined.

Lemma pmr_adaptors_of_equal_resources_are_equal_witness :
  (is_equal (pooled_host_resource 1 [1; 2]%N) (pooled_host_resource 2 [1; 2]%N) [] = true
   /\ is_equal (pooled_host_resource 2 [1; 2]%N) (pooled_host_resource 1 [1; 2]%N) [] = true)
  /\ (pmr_is_equal (pmr_adaptor 10 (pooled_host_resource 1 [1; 2]%N))
                   (pmr_adaptor 11 (pooled_host_resource 2 [1; 2]%N)) [] = true
      /\ pmr_is_equal (pmr_adaptor 11 (pooled_host_resource 2 [1; 2]%N))
                      (pmr_adaptor 10 (pooled_host_resource 1 [1; 2]%N)) [] = true).
Proof.
  assert (is_equal (pooled_host_resource 1 [1; 2]%N) (pooled_host_resource 2 [1; 2]%N) []
          = true
          /\ is_equal (pooled_host_resource 2 [1; 2]%N) (pooled_host_resource 1 [1; 2]%N) []
              = true) as H by (split; vm_compute; reflexivity).
  split; [exact H |].
  apply (@pmr_adaptors_of_equal_resources_are_equal trace string 10%N 11%N
           (pooled_host_resource 1 [1; 2]%N) (pooled_host_resource 2 [1; 2]%N) []).
  right. exact H.
Defined.

(** C5, as stated, fails: the enumeration has [host], the adaptor base
    names [memory_resource<memory_kind::host>], and a resource of that
    kind declares [host]. *)
Lemma host_kind_is_declared :
  ~ (forall (K : memory_kind) (r : memory_resource trace string K),
        kind r = device \/ kind r = unified \/ kind r = pinned).
Proof.
  intros H. destruct (H host (plain_host_resource 1)) as [H1 | [H1 | H1]]; discriminate H1.
Qed.

End contract.
(** ** The registry of the binding: theorems *)

Module registry.
Import binding logic examples.

Local Open Scope eff_scope.

(** *** The state after the elementary steps *)

Lemma fresh_object_absent (st : module_state) :
  objects st !! fresh (dom (objects st)) = None.
Proof. apply not_elem_of_dom, is_fresh. Qed.

Lemma fresh_native_absent (st : module_state) :
  native st !! fresh (dom (native st)) = None.
Proof. apply not_elem_of_dom, is_fresh. Qed.

(** A wrapper a live Python object points to is owned. *)
Lemma owned_c_obj (st : module_state) (r : py_ref) (o : py_object) (p : c_ptr) :
  objects st !! r = Some o -> c_obj o = Some p -> p ∈ owned st.
Proof.
  intros Hr Hp. unfold owned. apply list_elem_of_bind.
  exists (Some p). split; [cbn; left |].
  unfold holders. right. apply list_elem_of_fmap.
  exists (r, o). split; [now rewrite <- Hp |].
  now apply elem_of_map_to_list.
Qed.

Lemma release_unowned_objects (st : module_state) :
  objects (release_unowned st) = objects st.
Proof. reflexivity. Qed.

Lemma release_unowned__mr (st : module_state) : _mr (release_unowned st) = _mr st.
Proof. reflexivity. Qed.

Lemma release_unowned_keeps (st : module_state) (r : py_ref) (o : py_object) (p : c_ptr) :
  objects st !! r = Some o -> c_obj o = Some p ->
  native (release_unowned st) !! p = native st !! p.
Proof.
  intros Hr Hp. cbn. rewrite map_lookup_filter.
  destruct (native st !! p) as [n |]; [cbn | reflexivity].
  rewrite option_guard_True; [reflexivity |]. cbn. eapply owned_c_obj; eauto.
Qed.

(** *** [is_initialized] *)

(** C7, at the state the module is loaded in: [_mr] is [None], and
    [is_initialized] reads the member [c_obj] through it; the call has no
    defined result, so it does not return [False]. *)
Theorem is_initialized_undefined_at_module_load (env : gmap string string)
    (cxx : gmap c_ptr native_object -> wrapper -> option py_exception) :
  is_initialized (module_load env cxx) = (Undefined, module_load env cxx).
Proof. reflexivity. Qed.

(** With an object installed, [is_initialized] tells whether its [c_obj]
    is set. *)
Lemma is_initialized_installed (st : module_state) (r : py_ref) (o : py_object) :
  _mr st = Some r -> objects st !! r = Some o ->
  is_initialized st = (Return (bool_decide (c_obj o <> None)), st).
Proof.
  intros Hmr Hr. unfold is_initialized, bind, get, read_c_obj, ret.
  now rewrite Hmr, Hr.
Qed.

(** *** [LoggingResourceAdaptor] *)

Lemma construct_raises (t : py_type) (cinit : py_ref -> M unit) (st : module_state)
    (e : py_exception) :
  let r := fresh (dom (objects st)) in
  let st1 := set_objects <[r := {| ob_refcnt := 1; ob_type := t; c_obj := None |}]> st in
  cinit r st1 = (Raise e, st1) ->
  exists st', construct t cinit st = (Raise e, st')
              /\ objects st' = objects st /\ _mr st' = _mr st.
Proof.
  intros r st1 Hc. unfold construct, bind, tp_new. fold r. fold st1. rewrite Hc.
  unfold Py_DECREF, raise.
  assert (objects st1 !! r = Some {| ob_refcnt := 1; ob_type := t; c_obj := None |}) as ->
    by apply lookup_insert_eq.
  cbn [ob_refcnt]. destruct (decide (1 <= 1)); [| lia].
  eexists. split; [reflexivity |].
  split; [| reflexivity].
  cbn. rewrite delete_insert_eq. apply delete_id, fresh_object_absent.
Qed.

(** The object [__cinit__] is entered with, and the state it is entered
    in. *)
Lemma construct_unfold (t : py_type) (cinit : py_ref -> M unit) (st : module_state) :
  construct t cinit st
  = (let r := fresh (dom (objects st)) in
     let st1 := set_objects <[r := {| ob_refcnt := 1; ob_type := t; c_obj := None |}]> st in
     match cinit r st1 with
     | (Return _, st2) => (Return r, st2)
     | (Raise e, st2) =>
         match Py_DECREF r st2 with
         | (Return _, st3) => (Raise e, st3)
         | (Raise e', st3) => (Raise e', st3)
         | (Undefined, st3) => (Undefined, st3)
         end
     | (Undefined, st2) => (Undefined, st2)
     end).
Proof. reflexivity. Qed.

(** With a destination given as [bytes], a live upstream and a C++
    constructor that returns, the Python constructor returns a new
    adaptor whose wrapper logs to that destination. *)
Lemma logging_adaptor_constructed (st : module_state) (up : py_ref) (oup : py_object)
    (b : string) :
  objects st !! up = Some oup ->
  cxx_new st (native st) (logging_resource_adaptor_wrapper (c_obj oup) b) = None ->
  exists st' r p,
    LoggingResourceAdaptor_new (Some up) (py_bytes b) st = (Return r, st')
    /\ objects st !! r = None
    /\ objects st' !! r
       = Some {| ob_refcnt := 1; ob_type := LoggingResourceAdaptor; c_obj := Some p |}
    /\ native st' !! p
       = Some {| wrapped := logging_resource_adaptor_wrapper (c_obj oup) b;
                 log_buffer := []; log_sink := [] |}.
Proof.
  intros Hup Hnew. pose proof (fresh_object_absent st) as Hfresh.
  set (r := fresh (dom (objects st))) in *.
  assert (r <> up) as Hne by (intros ->; rewrite Hfresh in Hup; discriminate).
  unfold LoggingResourceAdaptor_new, construct, bind, tp_new. fold r.
  unfold LoggingResourceAdaptor___cinit__, to_std_string, bind, ret, read_c_obj.
  cbn [objects set_objects]. rewrite lookup_insert_ne, Hup by assumption.
  unfold cinit_with, bind, new_wrapper, c_obj_reset.
  cbn [objects native set_objects set_native cxx_new]. rewrite Hnew.
  cbn [objects native set_objects set_native]. rewrite lookup_insert_eq.
  cbn [ob_refcnt ob_type].
  eexists _, r, (fresh (dom (native st))).
  split; [reflexivity |]. split; [assumption |].
  split; [cbn; now rewrite lookup_insert_eq |].
  erewrite release_unowned_keeps with (r := r);
    [| cbn; now rewrite lookup_insert_eq | reflexivity].
  cbn. now rewrite lookup_insert_eq.
Qed.

(** When the C++ constructor throws, the Python constructor raises what
    the throw became and the adaptor object is released. *)
Lemma logging_adaptor_refused (st : module_state) (up : py_ref) (oup : py_object)
    (b : string) (e : py_exception) :
  objects st !! up = Some oup ->
  cxx_new st (native st) (logging_resource_adaptor_wrapper (c_obj oup) b) = Some e ->
  exists st',
    LoggingResourceAdaptor_new (Some up) (py_bytes b) st = (Raise e, st')
    /\ objects st' = objects st /\ _mr st' = _mr st.
Proof.
  intros Hup Hnew. pose proof (fresh_object_absent st) as Hfresh.
  set (r := fresh (dom (objects st))) in *.
  assert (r <> up) as Hne by (intros ->; rewrite Hfresh in Hup; discriminate).
  apply construct_raises. fold r.
  unfold LoggingResourceAdaptor___cinit__, to_std_string, bind, ret, read_c_obj.
  cbn [objects set_objects]. rewrite lookup_insert_ne, Hup by assumption.
  unfold cinit_with, bind, new_wrapper.
  cbn [objects native set_objects set_native cxx_new]. now rewrite Hnew.
Qed.

(** A [str] where the C++ constructor takes a [string] is refused before
    anything else is looked at. *)
Lemma LoggingResourceAdaptor_new_str (upstream : option py_ref) (s : string)
    (st : module_state) :
  exists st', LoggingResourceAdaptor_new upstream (py_str s) st
              = (Raise (TypeError str_refused), st')
              /\ objects st' = objects st /\ _mr st' = _mr st.
Proof. apply construct_raises. reflexivity. Qed.

(** C6: the destination of the adaptor. Without the parameter, when
    [RMM_LOG_FILE] is absent or empty as well, construction raises the
    [TypeError] of the configuration error and no adaptor object is left
    behind. When [RMM_LOG_FILE] holds a destination, that [str] is handed
    to the C++ constructor, which takes a [string]: the conversion raises
    [TypeError] before anything is constructed, and again no adaptor
    object is left. So without the parameter the constructor never
    returns an adaptor, whatever the environment holds. A parameter that
    is given is not checked: a [str], the empty one included, is refused
    by the same conversion, and [bytes], the empty ones included, go to
    the C++ constructor, whose outcome is the outcome of the call. *)
Theorem logging_adaptor_environment_fallback_raises (st : module_state)
    (upstream : option py_ref) :
  (environ st !! "RMM_LOG_FILE" = None \/ environ st !! "RMM_LOG_FILE" = Some EmptyString ->
   exists st', LoggingResourceAdaptor_new upstream py_None st
               = (Raise (TypeError log_file_message), st')
               /\ objects st' = objects st /\ _mr st' = _mr st)
  /\ (forall s, environ st !! "RMM_LOG_FILE" = Some s -> s <> EmptyString ->
       exists st', LoggingResourceAdaptor_new upstream py_None st
                   = (Raise (TypeError str_refused), st')
                   /\ objects st' = objects st /\ _mr st' = _mr st)
  /\ (forall r st', LoggingResourceAdaptor_new upstream py_None st <> (Return r, st'))
  /\ (forall s,
        exists st', LoggingResourceAdaptor_new upstream (py_str s) st
                    = (Raise (TypeError str_refused), st')
                    /\ objects st' = objects st /\ _mr st' = _mr st)
  /\ (forall b up oup,
        upstream = Some up -> objects st !! up = Some oup ->
        match cxx_new st (native st) (logging_resource_adaptor_wrapper (c_obj oup) b) with
        | None =>
            exists st' r p,
              LoggingResourceAdaptor_new upstream (py_bytes b) st = (Return r, st')
              /\ objects st !! r = None
              /\ objects st' !! r
                 = Some {| ob_refcnt := 1; ob_type := LoggingResourceAdaptor;
                           c_obj := Some p |}
              /\ native st' !! p
                 = Some {| wrapped := logging_resource_adaptor_wrapper (c_obj oup) b;
                           log_buffer := []; log_sink := [] |}
        | Some e =>
            exists st',
              LoggingResourceAdaptor_new upstream (py_bytes b) st = (Raise e, st')
              /\ objects st' = objects st /\ _mr st' = _mr st
        end).
Proof.
  assert (forall s, environ st !! "RMM_LOG_FILE" = Some s -> s <> EmptyString ->
            exists st', LoggingResourceAdaptor_new upstream py_None st
                        = (Raise (TypeError str_refused), st')
                        /\ objects st' = objects st /\ _mr st' = _mr st) as Hset.
  { intros s Henv Hs. apply construct_raises.
    unfold LoggingResourceAdaptor___cinit__, bind, os_getenv. cbn [environ set_objects].
    rewrite Henv. cbn [py_not]. now rewrite bool_decide_eq_false_2 by assumption. }
  assert (environ st !! "RMM_LOG_FILE" = None
          \/ environ st !! "RMM_LOG_FILE" = Some EmptyString ->
          exists st', LoggingResourceAdaptor_new upstream py_None st
                      = (Raise (TypeError log_file_message), st')
                      /\ objects st' = objects st /\ _mr st' = _mr st) as Hunset.
  { intros Henv. apply construct_raises.
    unfold LoggingResourceAdaptor___cinit__, bind, os_getenv. cbn [environ set_objects].
    destruct Henv as [-> | ->]; reflexivity. }
  split; [exact Hunset |]. split; [exact Hset |].
  split.
  { intros r st' Hrun.
    destruct (environ st !! "RMM_LOG_FILE") as [s |] eqn:Henv.
    - destruct (decide (s = EmptyString)) as [-> | Hs].
      + destruct (Hunset (or_intror eq_refl)) as (st2 & H2 & _). congruence.
      + destruct (Hset s eq_refl Hs) as (st2 & H2 & _). congruence.
    - destruct (Hunset (or_introl eq_refl)) as (st2 & H2 & _). congruence. }
  split; [intros s; apply LoggingResourceAdaptor_new_str |].
  intros b up oup -> Hup.
  destruct (cxx_new st (native st) (logging_resource_adaptor_wrapper (c_obj oup) b))
    as [e |] eqn:Hnew.
  - exact (@logging_adaptor_refused st up oup b e Hup Hnew).
  - exact (@logging_adaptor_constructed st up oup b Hup Hnew).
Qed.

(** *** [_flush_logs] *)

Lemma flush_of_logging_adaptor (st : module_state) (r : py_ref) (o : py_object)
    (p : c_ptr) (n : native_object) :
  objects st !! r = Some o -> c_obj o = Some p -> native st !! p = Some n ->
  LoggingResourceAdaptor_flush r st = (Return tt, set_native <[p := flushed n]> st).
Proof.
  intros Hr Hp Hn. unfold LoggingResourceAdaptor_flush, bind, read_c_obj.
  now rewrite Hr, Hp, Hn.
Qed.

(** C8: [_flush_logs] flushes the installed default when that is a
    logging adaptor, raises [AttributeError] and changes nothing when it
    is of another type, and whatever the outcome no C++ object other than
    the installed logging adaptor changes. *)
Theorem flush_logs_reaches_only_the_default (st : module_state) :
  (forall r o p n,
      _mr st = Some r -> objects st !! r = Some o ->
      ob_type o = LoggingResourceAdaptor ->
      c_obj o = Some p -> native st !! p = Some n ->
      _flush_logs st = (Return tt, set_native <[p := flushed n]> st)
      /\ log_buffer (flushed n) = []
      /\ log_sink (flushed n) = log_sink n ++ log_buffer n)
  /\ (forall t,
        get_default_resource_type st = (Return t, st) ->
        t <> LoggingResourceAdaptor ->
        exists msg, _flush_logs st = (Raise (AttributeError msg), st))
  /\ (forall out st',
        _flush_logs st = (out, st') ->
        _mr st' = _mr st /\ objects st' = objects st
        /\ forall q, native st' !! q <> native st !! q ->
             exists r o, _mr st = Some r /\ objects st !! r = Some o
                         /\ ob_type o = LoggingResourceAdaptor /\ c_obj o = Some q).
Proof.
  split; [| split].
  - intros r o p n Hmr Hr Ht Hp Hn. split; [| split; reflexivity].
    unfold _flush_logs. rewrite Hmr, Hr.
    destruct (decide (ob_type o = LoggingResourceAdaptor)); [| contradiction].
    eapply flush_of_logging_adaptor; eauto.
  - intros t Ht Hne. unfold get_default_resource_type in Ht. unfold _flush_logs.
    destruct (_mr st) as [r |]; [| eauto].
    destruct (objects st !! r) as [o |]; [| discriminate].
    injection Ht as Ht. subst t.
    destruct (decide (ob_type o = LoggingResourceAdaptor)); [contradiction | eauto].
  - intros out st'. unfold _flush_logs.
    destruct (_mr st) as [r |] eqn:Hmr; [| intros [= <- <-]; now repeat split].
    destruct (objects st !! r) as [o |] eqn:Hr; [| intros [= <- <-]; now repeat split].
    destruct (decide (ob_type o = LoggingResourceAdaptor)) as [Ht | Ht];
      [| intros [= <- <-]; now repeat split].
    unfold LoggingResourceAdaptor_flush, bind, read_c_obj. rewrite Hr.
    destruct (c_obj o) as [p |] eqn:Hp; [| intros [= <- <-]; now repeat split].
    destruct (native st !! p) as [n |] eqn:Hn; [| intros [= <- <-]; now repeat split].
    intros [= <- <-]. split; [exact Hmr | split; [reflexivity |]].
    intros q Hq. destruct (decide (p = q)) as [<- | Hpq].
    + exists r, o. now rewrite Hp.
    + exfalso. apply Hq. cbn. now rewrite lookup_insert_ne.
Qed.

Lemma triple_ret {A} (P : module_state -> Prop) (a : A)
    (Q : A -> module_state -> Prop) (E : module_state -> Prop) :
  (forall st, P st -> Q a st) -> triple P (ret a) Q E.
Proof. intros H st HP. now apply H. Qed.

Lemma triple_raise {A} (P : module_state -> Prop) (e : py_exception)
    (Q : A -> module_state -> Prop) (E : module_state -> Prop) :
  (forall st, P st -> E st) -> triple P (raise e) Q E.
Proof. intros H st HP. now apply H. Qed.

Lemma triple_bind {A B} (P : module_state -> Prop) (m : M A) (k : A -> M B)
    (Q : A -> module_state -> Prop) (R : B -> module_state -> Prop)
    (E : module_state -> Prop) :
  triple P m Q E -> (forall a, triple (Q a) (k a) R E) -> triple P (bind m k) R E.
Proof.
  intros Hm Hk st HP. specialize (Hm st HP). unfold bind.
  destruct (m st) as [[a | e |] st']; [| assumption | exact I].
  now apply Hk.
Qed.

Lemma triple_weaken {A} (P P' : module_state -> Prop) (m : M A)
    (Q Q' : A -> module_state -> Prop) (E E' : module_state -> Prop) :
  triple P m Q E ->
  (forall st, P' st -> P st) -> (forall a st, Q a st -> Q' a st) ->
  (forall st, E st -> E' st) ->
  triple P' m Q' E'.
Proof.
  intros Hm HP HQ HE st HP'. specialize (Hm st (HP st HP')).
  destruct (m st) as [[a | e |] st']; auto.
Qed.

(** [with_owned] keeps a triple whose postconditions survive the release
    of the owned reference. *)
Lemma triple_with_owned {A} (P : module_state -> Prop) (r : py_ref) (body : M A)
    (Q : A -> module_state -> Prop) (E : module_state -> Prop)
    (Q' : A -> module_state -> Prop) :
  triple P body Q E ->
  (forall a, triple (Q a) (Py_DECREF r) (fun _ => Q' a) E) ->
  triple E (Py_DECREF r) (fun _ => E) E ->
  triple P (with_owned r body) Q' E.
Proof.
  intros Hb HQ HE st HP. specialize (Hb st HP). unfold with_owned.
  destruct (body st) as [[a | e |] st']; [| | exact I].
  - specialize (HQ a st' Hb). unfold bind, ret.
    destruct (Py_DECREF r st') as [[[] | e |] st'']; assumption.
  - specialize (HE st' Hb). unfold bind, raise.
    destruct (Py_DECREF r st') as [[[] | e' |] st'']; assumption.
Qed.

(** *** The empty resource [_initialize] installs first *)

(** Use a [keeps] fact at a state. *)
Ltac use_keeps H st Hkept Hres :=
  pose proof H as Hres; unfold keeps, triple in Hres; specialize (Hres st Hkept).

Lemma keeps_bind {A B} (r : py_ref) (m : M A) (k : A -> M B)
    (phi : A -> Prop) (psi : B -> Prop) :
  keeps r m phi -> (forall a, phi a -> keeps r (k a) psi) -> keeps r (bind m k) psi.
Proof.
  intros Hm Hk. eapply triple_bind; [exact Hm |].
  intros a st [Hkept Hphi]. now apply Hk.
Qed.

Lemma keeps_ret {A} (r : py_ref) (a : A) (phi : A -> Prop) :
  phi a -> keeps r (ret a) phi.
Proof. intros H. apply triple_ret. now intros st Hk. Qed.

Lemma keeps_raise {A} (r : py_ref) (e : py_exception) (phi : A -> Prop) :
  keeps r (raise e : M A) phi.
Proof. apply triple_raise. now intros st Hk. Qed.

Lemma keeps_weaken {A} (r : py_ref) (m : M A) (phi psi : A -> Prop) :
  keeps r m phi -> (forall a, phi a -> psi a) -> keeps r m psi.
Proof.
  intros Hm H. eapply triple_weaken; [exact Hm | auto | | auto].
  intros a st [Hk Hphi]. auto.
Qed.

Lemma kept_release_unowned (r : py_ref) (st : module_state) :
  kept r st -> kept r (release_unowned st).
Proof. intros H. exact H. Qed.

Lemma keeps_Py_DECREF (r r' : py_ref) :
  r' <> r -> keeps r (Py_DECREF r') (fun _ => True).
Proof.
  intros Hne st [Hmr Hr]. unfold Py_DECREF.
  destruct (objects st !! r') as [o |]; [| exact I].
  destruct (decide (ob_refcnt o <= 1)); (split; [split |]; [assumption | | exact I]);
    cbn.
  - now rewrite lookup_delete_ne.
  - now rewrite lookup_insert_ne.
Qed.

Lemma keeps_tp_new (r : py_ref) (t : py_type) :
  keeps r (tp_new t) (fun r' => r' <> r).
Proof.
  intros st [Hmr Hr]. unfold tp_new.
  assert (fresh (dom (objects st)) <> r) as Hne.
  { intros Heq. pose proof (fresh_object_absent st) as Habs.
    rewrite Heq, Hr in Habs. discriminate. }
  split; [split; [assumption |] | assumption].
  cbn. now rewrite lookup_insert_ne.
Qed.

Lemma keeps_read_c_obj (r : py_ref) (v : option py_ref) :
  keeps r (read_c_obj v) (fun _ => True).
Proof.
  intros st Hk. unfold read_c_obj.
  destruct v as [r' |]; [| exact I].
  destruct (objects st !! r'); [now split | exact I].
Qed.

Lemma keeps_cinit_with (r self : py_ref) (w : wrapper) :
  self <> r -> keeps r (cinit_with w self) (fun _ => True).
Proof.
  intros Hne st [Hmr Hr]. unfold cinit_with, bind, new_wrapper, c_obj_reset.
  destruct (cxx_new st (native st) w); [now split |].
  cbn [objects set_native].
  destruct (objects st !! self) as [o |]; [| exact I].
  split; [split; [assumption |] | exact I].
  cbn. now rewrite lookup_insert_ne.
Qed.

Lemma keeps_to_size_t (r : py_ref) (z : Z) : keeps r (to_size_t z) (fun _ => True).
Proof.
  unfold to_size_t. repeat case_decide; try apply keeps_raise. now apply keeps_ret.
Qed.

Lemma keeps_to_vector_int (r : py_ref) (l : list Z) :
  keeps r (to_vector_int l) (fun _ => True).
Proof.
  induction l as [| z l IH]; cbn [to_vector_int]; [now apply keeps_ret |].
  eapply keeps_bind with (phi := fun _ => True).
  - unfold to_int. case_decide; [now apply keeps_ret | apply keeps_raise].
  - intros i _. eapply keeps_bind; [exact IH |]. intros v _. now apply keeps_ret.
Qed.

Lemma keeps_to_std_string (r : py_ref) (v : py_text) :
  keeps r (to_std_string v) (fun _ => True).
Proof. destruct v; try apply keeps_raise. now apply keeps_ret. Qed.

Lemma keeps_construct (r : py_ref) (t : py_type) (cinit : py_ref -> M unit) :
  (forall self, self <> r -> keeps r (cinit self) (fun _ => True)) ->
  keeps r (construct t cinit) (fun r' => r' <> r).
Proof.
  intros Hc. unfold construct. eapply keeps_bind; [apply keeps_tp_new |].
  intros self Hne st Hk. cbv beta in Hne. specialize (Hc self Hne st Hk).
  destruct (cinit self st) as [[[] | e |] st']; [| | exact I].
  - destruct Hc as [Hk' _]. now split.
  - use_keeps (keeps_Py_DECREF Hne) st' Hc Hd. unfold bind, raise.
    destruct (Py_DECREF self st') as [[[] | e' |] st'']; [| assumption | exact I].
    now destruct Hd.
Qed.

Lemma keeps_with_owned {A} (r r' : py_ref) (body : M A) (phi : A -> Prop) :
  r' <> r -> keeps r body phi -> keeps r (with_owned r' body) phi.
Proof.
  intros Hne Hb. eapply triple_with_owned; [exact Hb | |].
  - intros a st [Hk Hphi]. use_keeps (keeps_Py_DECREF Hne) st Hk Hd.
    destruct (Py_DECREF r' st) as [[[] | e |] st']; [| assumption | exact I].
    now destruct Hd.
  - intros st Hk. use_keeps (keeps_Py_DECREF Hne) st Hk Hd.
    destruct (Py_DECREF r' st) as [[[] | e |] st']; [| assumption | exact I].
    now destruct Hd.
Qed.

Lemma keeps_typ_args (r : py_ref) (pool_allocator managed_memory : bool)
    (initial_pool_size : Z) (devices : list Z) :
  keeps r
    (if negb pool_allocator then
       if negb managed_memory then CudaMemoryResource_new else ManagedMemoryResource_new
     else
       if negb managed_memory
       then CNMemMemoryResource_new initial_pool_size devices
       else CNMemManagedMemoryResource_new initial_pool_size devices)
    (fun r' => r' <> r).
Proof.
  destruct pool_allocator, managed_memory; cbn [negb];
    apply keeps_construct; intros self Hne; try now apply keeps_cinit_with.
  all: eapply keeps_bind; [apply keeps_to_size_t |]; intros n _.
  all: eapply keeps_bind; [apply keeps_to_vector_int |]; intros v _.
  all: now apply keeps_cinit_with.
Qed.

Lemma keeps_LoggingResourceAdaptor_new (r : py_ref) (upstream : option py_ref)
    (log_file_name : py_text) :
  keeps r (LoggingResourceAdaptor_new upstream log_file_name) (fun r' => r' <> r).
Proof.
  apply keeps_construct. intros self Hne. unfold LoggingResourceAdaptor___cinit__.
  eapply keeps_bind with (phi := fun _ => True).
  - destruct log_file_name as [| s | b]; try now apply keeps_ret.
    eapply keeps_bind with (phi := fun _ => True).
    + intros st Hk. now split.
    + intros v _. destruct (py_not v); [apply keeps_raise | now apply keeps_ret].
  - intros v _. eapply keeps_bind; [apply keeps_to_std_string |].
    intros name _. eapply keeps_bind; [apply keeps_read_c_obj |].
    intros u _. now apply keeps_cinit_with.
Qed.

Lemma keeps_str_encode (r : py_ref) (s : py_text) :
  keeps r (str_encode s) (fun _ => True).
Proof. destruct s; try apply keeps_raise. now apply keeps_ret. Qed.

(** *** Computations that cannot raise *)

Lemma no_raise_bind {A B} (m : M A) (k : A -> M B) :
  no_raise m -> (forall a, no_raise (k a)) -> no_raise (bind m k).
Proof. intros Hm Hk. eapply triple_bind; [exact Hm | exact Hk]. Qed.

Lemma no_raise_Py_INCREF (r : py_ref) : no_raise (Py_INCREF r).
Proof. intros st _. unfold Py_INCREF. now destruct (objects st !! r). Qed.

Lemma no_raise_Py_DECREF (r : py_ref) : no_raise (Py_DECREF r).
Proof.
  intros st _. unfold Py_DECREF. destruct (objects st !! r) as [o |]; [| exact I].
  now destruct (decide (ob_refcnt o <= 1)).
Qed.

Lemma no_raise_assign__mr (v : option py_ref) : no_raise (assign__mr v).
Proof.
  unfold assign__mr. apply no_raise_bind.
  { destruct v; [apply no_raise_Py_INCREF | now intros st _]. }
  intros _. apply no_raise_bind; [now intros st _ |].
  intros st. apply no_raise_bind; [now intros st0 _ |].
  intros _. destruct (_mr st); [apply no_raise_Py_DECREF | now intros st0 _].
Qed.

Lemma no_raise_read_c_obj (v : option py_ref) : no_raise (read_c_obj v).
Proof.
  intros st _. unfold read_c_obj. destruct v as [r |]; [| exact I].
  now destruct (objects st !! r).
Qed.

Lemma no_raise__set_default_resource (mr : option py_ref) :
  no_raise (_set_default_resource mr).
Proof.
  unfold _set_default_resource. apply no_raise_bind; [apply no_raise_assign__mr |].
  intros _. apply no_raise_bind; [now intros st _ |].
  intros st. apply no_raise_bind; [apply no_raise_read_c_obj |].
  intros p st0 _. exact I.
Qed.

Lemma no_raise_with_owned {A} (r : py_ref) (body : M A) :
  no_raise body -> no_raise (with_owned r body).
Proof.
  intros Hb. eapply triple_with_owned; [exact Hb | |].
  - intros a st _. pose proof (no_raise_Py_DECREF r) as Hd.
    unfold no_raise, triple in Hd. specialize (Hd st I).
    now destruct (Py_DECREF r st) as [[[] | e |] st'].
  - intros st [].
Qed.

(** *** [_initialize] *)

Lemma MemoryResource_new_eq (st : module_state) :
  MemoryResource_new st
  = (Return (fresh (dom (objects st))),
     set_objects <[fresh (dom (objects st)) := empty_resource]> st).
Proof. reflexivity. Qed.

(** The first statement of [_initialize], [_mr = MemoryResource()]. *)
Lemma install_empty_resource (st : module_state) :
  registry_wf st ->
  let r := fresh (dom (objects st)) in
  match with_owned r (assign__mr (Some r)) (set_objects <[r := empty_resource]> st) with
  | (Return _, st') => kept r st'
  | (Raise _, _) => False
  | (Undefined, _) => True
  end.
Proof.
  intros Hwf r. pose proof (fresh_object_absent st) as Hfresh. fold r in Hfresh.
  unfold with_owned, assign__mr, bind, Py_XINCREF, Py_INCREF, get, modify.
  cbn [objects set_objects]. rewrite lookup_insert_eq. cbn [_mr set_objects set__mr].
  destruct (_mr st) as [old |] eqn:Hold.
  - destruct (Hwf old Hold) as [o Ho].
    assert (old <> r) as Hne by (intros ->; rewrite Hfresh in Ho; discriminate).
    unfold Py_XDECREF, Py_DECREF. cbn [objects set_objects set__mr].
    rewrite insert_insert_eq, lookup_insert_ne, Ho by auto.
    destruct (decide (ob_refcnt o <= 1)); cbn [objects set_objects set__mr tp_dealloc
                                                release_unowned set_native].
    + rewrite lookup_delete_ne, lookup_insert_eq by auto. cbn [ob_refcnt incref empty_resource].
      destruct (decide (2 <= 1)); [lia |]. unfold ret. split; [reflexivity |].
      cbn. now rewrite lookup_insert_eq.
    + rewrite lookup_insert_ne, lookup_insert_eq by auto. cbn [ob_refcnt incref empty_resource].
      destruct (decide (2 <= 1)); [lia |]. unfold ret. split; [reflexivity |].
      cbn. now rewrite lookup_insert_eq.
  - unfold Py_XDECREF, ret, Py_DECREF. cbn [objects set_objects set__mr].
    rewrite insert_insert_eq, lookup_insert_eq. cbn [ob_refcnt incref empty_resource].
    destruct (decide (2 <= 1)); [lia |]. split; [reflexivity |].
    cbn. now rewrite lookup_insert_eq.
Qed.

(** C9: when [_initialize] raises, the registry holds the empty
    [MemoryResource] created at its start, not the resource installed
    before the call, and [is_initialized] reports false. *)
Theorem initialize_failure_empties_registry (pool_allocator managed_memory : bool)
    (initial_pool_size : option Z) (devices : py_devices) (logging : bool)
    (log_file_name : py_text) (st st' : module_state) (e : py_exception) :
  registry_wf st ->
  _initialize pool_allocator managed_memory initial_pool_size devices logging
    log_file_name st = (Raise e, st') ->
  exists r,
    objects st !! r = None
    /\ _mr st' = Some r
    /\ objects st' !! r = Some empty_resource
    /\ _mr st' <> _mr st
    /\ is_initialized st' = (Return false, st')
    /\ get_default_resource_type st' = (Return MemoryResource, st').
Proof.
  intros Hwf Hrun. set (r := fresh (dom (objects st))).
  assert (kept r st') as [Hmr Hr].
  { unfold _initialize in Hrun. unfold bind at 1 in Hrun.
    rewrite MemoryResource_new_eq in Hrun. fold r in Hrun.
    unfold bind at 1 in Hrun.
    pose proof (install_empty_resource Hwf) as Hpre. cbv zeta in Hpre. fold r in Hpre.
    destruct (with_owned r (assign__mr (Some r)) (set_objects <[r:=empty_resource]> st))
      as [[[] | e0 |] st2]; [| contradiction | discriminate].
    match type of Hrun with
    | ?m st2 = _ => assert (triple (kept r) m (fun _ _ => True) (kept r)) as Hrest
    end.
    { eapply triple_bind with (Q := fun _ _ => True).
      - eapply triple_weaken
          with (P := kept r) (Q := fun a st0 => kept r st0 /\ a <> r) (E := kept r);
          [| auto | auto | auto].
        destruct logging.
        + eapply keeps_bind; [apply keeps_typ_args |].
          intros upstream Hne. apply keeps_with_owned; [assumption |].
          eapply keeps_bind; [apply keeps_str_encode |].
          intros name _. apply keeps_LoggingResourceAdaptor_new.
        + apply keeps_typ_args.
      - intros mr. eapply triple_weaken
          with (P := fun _ => True) (Q := fun _ _ => True) (E := fun _ => False);
          [apply no_raise_with_owned, no_raise__set_default_resource | auto | auto |].
        intros st0 []. }
    specialize (Hrest st2 Hpre). rewrite Hrun in Hrest. exact Hrest. }
  exists r. split; [apply fresh_object_absent |].
  split; [assumption |]. split; [assumption |].
  split.
  { rewrite Hmr. intros Heq. symmetry in Heq. destruct (Hwf r Heq) as [o Ho].
    pose proof (fresh_object_absent st) as Habs. fold r in Habs.
    rewrite Habs in Ho. discriminate. }
  split.
  - now rewrite (is_initialized_installed _ Hmr Hr).
  - unfold get_default_resource_type. now rewrite Hmr, Hr.
Qed.

(** *** [_set_default_resource] *)

Ltac finish_carried :=
  unfold carried_over, registry_share in *;
  cbn [_mr objects native set_objects set__mr set_native ob_type c_obj ob_refcnt
       incref decref] in *;
  repeat match goal with
         | H : _mr _ = _ |- _ => rewrite H in *
         end;
  repeat case_decide; try congruence;
  repeat split; cbn; try lia; auto.

Lemma assign__mr_live (st : module_state) (r : py_ref) (o : py_object) :
  registry_wf st ->
  objects st !! r = Some o -> registry_share st r < ob_refcnt o ->
  exists st',
    assign__mr (Some r) st = (Return tt, st')
    /\ _mr st' = Some r
    /\ default_resource st' = default_resource st
    /\ forall x ox, objects st !! x = Some ox -> registry_share st x < ob_refcnt ox ->
         exists ox', objects st' !! x = Some ox' /\ carried_over st st' x ox ox'.
Proof.
  intros Hwf Hr Hheld.
  unfold assign__mr, bind, Py_XINCREF, Py_INCREF, get, modify. rewrite Hr.
  cbn [_mr set_objects]. unfold registry_share in *.
  destruct (_mr st) as [old |] eqn:Hold; unfold Py_XDECREF, Py_DECREF, ret.
  - cbn [objects set_objects set__mr].
    destruct (decide (old = r)) as [-> | Hne].
    + rewrite lookup_insert_eq. cbn [ob_refcnt incref].
      destruct (decide (Some r = Some r)); [| congruence].
      destruct (decide (S (ob_refcnt o) <= 1)); [lia |].
      eexists. split; [reflexivity |]. split; [reflexivity |]. split; [reflexivity |].
      intros x ox Hx Hxheld. cbn [_mr objects native set_objects set__mr].
      rewrite insert_insert_eq.
      destruct (decide (r = x)) as [<- | Hrx].
      * rewrite lookup_insert_eq. eexists. split; [reflexivity |].
        rewrite Hr in Hx. injection Hx as <-.
        destruct (decide (Some r = Some r)); [| congruence].
        finish_carried.
      * rewrite lookup_insert_ne by assumption. exists ox. split; [assumption |].
        destruct (decide (Some r = Some x)); [congruence |].
        finish_carried.
    + rewrite lookup_insert_ne by auto. destruct (Hwf old Hold) as [oo Hoo]. rewrite Hoo.
      destruct (decide (Some old = Some r)); [congruence |].
      destruct (decide (ob_refcnt oo <= 1)) as [Hlast | Hmore].
      * eexists. split; [reflexivity |]. split; [reflexivity |]. split; [reflexivity |].
        intros x ox Hx Hxheld.
        assert (x <> old) as Hxo.
        { intros ->. rewrite Hoo in Hx. injection Hx as <-.
          destruct (decide (Some old = Some old)); [lia | congruence]. }
        destruct (decide (Some old = Some x)); [congruence |].
        assert (exists ox', delete old (<[r := incref o]> (objects st)) !! x = Some ox'
                            /\ ob_type ox' = ob_type ox /\ c_obj ox' = c_obj ox
                            /\ ob_refcnt ox' =
                                 ob_refcnt ox - (if decide (Some old = Some x) then 1 else 0)
                                 + (if decide (Some r = Some x) then 1 else 0))
          as (ox' & Hx' & Hty & Hc & Hcnt).
        { rewrite lookup_delete_ne by auto.
          destruct (decide (r = x)) as [<- | Hrx].
          - rewrite lookup_insert_eq. eexists. split; [reflexivity |].
            rewrite Hr in Hx. injection Hx as <-.
            finish_carried.
          - rewrite lookup_insert_ne by assumption. exists ox. split; [assumption |].
            destruct (decide (Some r = Some x)); [congruence |]. finish_carried. }
        exists ox'. split; [exact Hx' |].
        split; [assumption |]. split; [assumption |].
        split; [unfold registry_share; cbn [_mr tp_dealloc release_unowned set_native
                                              set_objects set__mr];
                rewrite Hold; exact Hcnt |].
        intros p Hp. unfold tp_dealloc.
        erewrite release_unowned_keeps; [reflexivity | exact Hx' | congruence].
      * eexists. split; [reflexivity |]. split; [reflexivity |]. split; [reflexivity |].
        intros x ox Hx Hxheld. cbn [_mr objects native set_objects set__mr].
        destruct (decide (old = x)) as [<- | Hox].
        -- rewrite lookup_insert_eq. eexists. split; [reflexivity |].
           rewrite Hoo in Hx. injection Hx as <-.
           destruct (decide (Some old = Some old)); [| congruence].
           destruct (decide (Some r = Some old)); [congruence |].
           finish_carried.
        -- rewrite lookup_insert_ne by assumption.
           destruct (decide (Some old = Some x)); [congruence |].
           destruct (decide (r = x)) as [<- | Hrx].
           ++ rewrite lookup_insert_eq. eexists. split; [reflexivity |].
              rewrite Hr in Hx. injection Hx as <-.
              destruct (decide (Some r = Some r)); [| congruence].
              finish_carried.
           ++ rewrite lookup_insert_ne by assumption. exists ox. split; [assumption |].
              destruct (decide (Some r = Some x)); [congruence |].
              finish_carried.
  - eexists. split; [reflexivity |]. split; [reflexivity |]. split; [reflexivity |].
    intros x ox Hx Hxheld. cbn [_mr objects native set_objects set__mr].
    destruct (decide (None = Some x)); [discriminate |].
    destruct (decide (r = x)) as [<- | Hrx].
    + rewrite lookup_insert_eq. eexists. split; [reflexivity |].
      rewrite Hr in Hx. injection Hx as <-.
      destruct (decide (Some r = Some r)); [| congruence].
      finish_carried.
    + rewrite lookup_insert_ne by assumption. exists ox. split; [assumption |].
      destruct (decide (Some r = Some x)); [congruence |].
      finish_carried.
Qed.

Lemma set_default_resource_live (st : module_state) (r : py_ref) (o : py_object) :
  registry_wf st ->
  objects st !! r = Some o -> registry_share st r < ob_refcnt o ->
  exists st',
    _set_default_resource (Some r) st = (Return tt, st')
    /\ _mr st' = Some r
    /\ default_resource st' = c_obj o
    /\ registry_wf st'
    /\ forall x ox, objects st !! x = Some ox -> registry_share st x < ob_refcnt ox ->
         exists ox', objects st' !! x = Some ox' /\ carried_over st st' x ox ox'.
Proof.
  intros Hwf Hr Hheld.
  destruct (@assign__mr_live st r o Hwf Hr Hheld) as (st1 & Hrun & Hmr & Hdef & Hall).
  destruct (Hall r o Hr Hheld) as (o1 & Hr1 & Hty1 & Hc1 & Hcnt1 & Hnat1).
  unfold _set_default_resource, bind. rewrite Hrun. unfold get, read_c_obj.
  rewrite Hmr, Hr1. unfold set_default_resource, modify.
  eexists. split; [reflexivity |].
  split; [exact Hmr |]. split; [now rewrite <- Hc1 |].
  split.
  { intros r' Hr'. cbn in Hr'. rewrite Hmr in Hr'. injection Hr' as <-.
    cbn. rewrite Hr1. eauto. }
  intros x ox Hx Hxheld.
  destruct (Hall x ox Hx Hxheld) as (ox1 & Hx1 & Hty & Hc & Hcnt & Hnat).
  exists ox1. split; [exact Hx1 |].
  split; [assumption |]. split; [assumption |]. split; [exact Hcnt |].
  intros p Hp. rewrite <- (Hnat p Hp).
  etransitivity;
    [apply (@release_unowned_keeps (set_default_resource_slot (c_obj o1) st1) x ox1 p Hx1);
     congruence
    | reflexivity].
Qed.

(** After a successful installation [is_initialized] returns true when
    the installed object has its [c_obj] set. *)
Lemma is_initialized_after_set_default (st : module_state) (r : py_ref) (o : py_object)
    (p : c_ptr) :
  registry_wf st ->
  objects st !! r = Some o -> registry_share st r < ob_refcnt o -> c_obj o = Some p ->
  exists st', _set_default_resource (Some r) st = (Return tt, st')
              /\ is_initialized st' = (Return true, st').
Proof.
  intros Hwf Hr Hheld Hp.
  destruct (@set_default_resource_live st r o Hwf Hr Hheld) as (st' & Hrun & Hmr & _ & _ & Hall).
  destruct (Hall r o Hr Hheld) as (o' & Hr' & _ & Hc & _).
  exists st'. split; [assumption |].
  rewrite (@is_initialized_installed st' r o' Hmr Hr'), Hc, Hp. reflexivity.
Qed.

(** C4, as amended: after [_set_default_resource(X)] and then
    [_set_default_resource(Y)] the registry holds [Y] and reports the type
    of [Y]; the replacement only gives up the registry's own reference to
    [X], so an [X] that is still referenced elsewhere is the same object
    as before, and the allocator it wraps is untouched. *)
Theorem replaced_default_survives_while_held (st : module_state) (X Y : py_ref)
    (oX oY : py_object) (pX : c_ptr) (nX : native_object) :
  registry_wf st ->
  objects st !! X = Some oX -> registry_share st X < ob_refcnt oX ->
  objects st !! Y = Some oY -> registry_share st Y < ob_refcnt oY ->
  c_obj oX = Some pX -> native st !! pX = Some nX ->
  exists st' oX',
    (let! _ := _set_default_resource (Some X) in _set_default_resource (Some Y)) st
    = (Return tt, st')
    /\ _mr st' = Some Y
    /\ get_default_resource_type st' = (Return (ob_type oY), st')
    /\ default_resource st' = c_obj oY
    /\ objects st' !! X = Some oX'
    /\ ob_type oX' = ob_type oX
    /\ c_obj oX' = Some pX
    /\ 0 < ob_refcnt oX'
    /\ native st' !! pX = Some nX.
Proof.
  intros Hwf HX HXheld HY HYheld HpX HnX.
  destruct (@set_default_resource_live st X oX Hwf HX HXheld)
    as (st1 & Hrun1 & Hmr1 & Hdef1 & Hwf1 & Hall1).
  destruct (Hall1 X oX HX HXheld) as (oX1 & HX1 & HtyX1 & HcX1 & HcntX1 & HnatX1).
  destruct (Hall1 Y oY HY HYheld) as (oY1 & HY1 & HtyY1 & HcY1 & HcntY1 & HnatY1).
  assert (registry_share st1 X < ob_refcnt oX1) as HXheld1 by lia.
  assert (registry_share st1 Y < ob_refcnt oY1) as HYheld1 by lia.
  destruct (@set_default_resource_live st1 Y oY1 Hwf1 HY1 HYheld1)
    as (st2 & Hrun2 & Hmr2 & Hdef2 & Hwf2 & Hall2).
  destruct (Hall2 X oX1 HX1 HXheld1) as (oX2 & HX2 & HtyX2 & HcX2 & HcntX2 & HnatX2).
  destruct (Hall2 Y oY1 HY1 HYheld1) as (oY2 & HY2 & HtyY2 & HcY2 & HcntY2 & HnatY2).
  exists st2, oX2. unfold bind. rewrite Hrun1.
  split; [exact Hrun2 |]. split; [exact Hmr2 |].
  split; [unfold get_default_resource_type; rewrite Hmr2, HY2; congruence |].
  split; [congruence |]. split; [exact HX2 |]. split; [congruence |].
  split; [congruence |]. split; [lia |].
  rewrite (HnatX2 pX), (HnatX1 pX); [assumption | assumption | congruence].
Qed.

(** *** The theorems at concrete states *)

Lemma logging_adaptor_environment_fallback_raises_witness :
  (exists st',
      LoggingResourceAdaptor_new (Some 2%positive) py_None after_initialize
      = (Raise (TypeError log_file_message), st')
      /\ objects st' = objects after_initialize /\ _mr st' = _mr after_initialize)
  /\ (exists st',
        LoggingResourceAdaptor_new (Some 3%positive) py_None logging_installed
        = (Raise (TypeError str_refused), st')
        /\ objects st' = objects logging_installed /\ _mr st' = _mr logging_installed).
Proof.
  split.
  - apply (proj1 (logging_adaptor_environment_fallback_raises after_initialize
                    (Some 2%positive))).
    left. reflexivity.
  - apply (proj1 (proj2 (logging_adaptor_environment_fallback_raises logging_installed
                           (Some 3%positive))) "rmm.log").
    + reflexivity.
    + discriminate.
Defined.

Lemma flush_logs_reaches_only_the_default_witness :
  (_flush_logs logging_installed
   = (Return tt,
      set_native
        <[2%positive :=
            flushed {| wrapped := logging_resource_adaptor_wrapper (Some 1%positive) "rmm.log";
                       log_buffer := ["allocate,256"; "free,256"];
                       log_sink := [] |}]> logging_installed)
   /\ log_buffer
        (flushed {| wrapped := logging_resource_adaptor_wrapper (Some 1%positive) "rmm.log";
                    log_buffer := ["allocate,256"; "free,256"];
                    log_sink := [] |}) = []
   /\ log_sink
        (flushed {| wrapped := logging_resource_adaptor_wrapper (Some 1%positive) "rmm.log";
                    log_buffer := ["allocate,256"; "free,256"];
                    log_sink := [] |}) = [] ++ ["allocate,256"; "free,256"])
  /\ (exists msg, _flush_logs after_initialize = (Raise (AttributeError msg), after_initialize)).
Proof.
  split.
  - apply (proj1 (flush_logs_reaches_only_the_default logging_installed)
             3%positive
             {| ob_refcnt := 1; ob_type := LoggingResourceAdaptor; c_obj := Some 2%positive |}
             2%positive);
      vm_compute; reflexivity.
  - apply (proj1 (proj2 (flush_logs_reaches_only_the_default after_initialize))
             CudaMemoryResource).
    + vm_compute. reflexivity.
    + discriminate.
Defined.

Lemma initialize_failure_empties_registry_witness :
  registry_wf with_second_resource
  /\ _initialize false false None (devices_int 0) true py_None with_second_resource
     = (Raise (AttributeError "'NoneType' object has no attribute 'encode'"),
        snd (_initialize false false None (devices_int 0) true py_None with_second_resource))
  /\ exists r,
      objects with_second_resource !! r = None
      /\ _mr (snd (_initialize false false None (devices_int 0) true py_None
                     with_second_resource)) = Some r
      /\ objects (snd (_initialize false false None (devices_int 0) true py_None
                         with_second_resource)) !! r = Some empty_resource
      /\ _mr (snd (_initialize false false None (devices_int 0) true py_None
                     with_second_resource)) <> _mr with_second_resource
      /\ is_initialized (snd (_initialize false false None (devices_int 0) true py_None
                                with_second_resource))
         = (Return false,
            snd (_initialize false false None (devices_int 0) true py_None with_second_resource))
      /\ get_default_resource_type
           (snd (_initialize false false None (devices_int 0) true py_None with_second_resource))
         = (Return MemoryResource,
            snd (_initialize false false None (devices_int 0) true py_None with_second_resource)).
Proof.
  assert (registry_wf with_second_resource) as Hwf.
  { intros r Hr. vm_compute in Hr. injection Hr as <-. vm_compute. eauto. }
  assert (_initialize false false None (devices_int 0) true py_None with_second_resource
          = (Raise (AttributeError "'NoneType' object has no attribute 'encode'"),
             snd (_initialize false false None (devices_int 0) true py_None
                    with_second_resource))) as Hrun
    by (vm_compute; reflexivity).
  split; [exact Hwf |]. split; [exact Hrun |].
  exact (initialize_failure_empties_registry false false None (devices_int 0) true py_None
           Hwf Hrun).
Defined.

Lemma replaced_default_survives_while_held_witness :
  registry_wf two_resources
  /\ objects two_resources !! 1%positive
     = Some {| ob_refcnt := 1; ob_type := CudaMemoryResource; c_obj := Some 1%positive |}
  /\ objects two_resources !! 2%positive
     = Some {| ob_refcnt := 1; ob_type := ManagedMemoryResource; c_obj := Some 2%positive |}
  /\ native two_resources !! 1%positive
     = Some {| wrapped := cuda_memory_resource_wrapper; log_buffer := []; log_sink := [] |}
  /\ exists st' oX',
      (let! _ := _set_default_resource (Some 1%positive) in
       _set_default_resource (Some 2%positive)) two_resources = (Return tt, st')
      /\ _mr st' = Some 2%positive
      /\ get_default_resource_type st' = (Return ManagedMemoryResource, st')
      /\ default_resource st' = Some 2%positive
      /\ objects st' !! 1%positive = Some oX'
      /\ ob_type oX' = CudaMemoryResource
      /\ c_obj oX' = Some 1%positive
      /\ 0 < ob_refcnt oX'
      /\ native st' !! 1%positive
         = Some {| wrapped := cuda_memory_resource_wrapper; log_buffer := []; log_sink := [] |}.
Proof.
  assert (registry_wf two_resources) as Hwf by (intros r Hr; vm_compute in Hr; discriminate).
  split; [exact Hwf |].
  split; [vm_compute; reflexivity |].
  split; [vm_compute; reflexivity |].
  split; [vm_compute; reflexivity |].
  apply (@replaced_default_survives_while_held two_resources 1%positive 2%positive
           {| ob_refcnt := 1; ob_type := CudaMemoryResource; c_obj := Some 1%positive |}
           {| ob_refcnt := 1; ob_type := ManagedMemoryResource; c_obj := Some 2%positive |}
           1%positive
           {| wrapped := cuda_memory_resource_wrapper; log_buffer := []; log_sink := [] |}
           Hwf);
    solve [vm_compute; reflexivity | vm_compute; lia].
Defined.

(** C4, as stated, fails: the resource [_initialize] installs through
    [_set_default_resource] is referenced by the registry alone, and the
    next [_set_default_resource] destroys it together with the allocator
    it wraps. *)
Lemma replaced_default_is_destroyed_when_unshared :
  _initialize false false None (devices_int 0) false py_None (module_init no_environment)
  = (Return tt, after_initialize)
  /\ _mr after_initialize = Some 2%positive
  /\ objects after_initialize !! 2%positive
     = Some {| ob_refcnt := 1; ob_type := CudaMemoryResource; c_obj := Some 1%positive |}
  /\ native after_initialize !! 1%positive
     = Some {| wrapped := cuda_memory_resource_wrapper; log_buffer := []; log_sink := [] |}
  /\ ManagedMemoryResource_new after_initialize = (Return 3%positive, with_second_resource)
  /\ fst (_set_default_resource (Some 3%positive) with_second_resource) = Return tt
  /\ _mr (snd (_set_default_resource (Some 3%positive) with_second_resource))
     = Some 3%positive
  /\ objects (snd (_set_default_resource (Some 3%positive) with_second_resource))
       !! 2%positive = None
  /\ native (snd (_set_default_resource (Some 3%positive) with_second_resource))
       !! 1%positive = None.
Proof.
  repeat (split; [vm_compute; reflexivity |]). vm_compute. reflexivity.
Qed.

End registry.

(** ** More on the allocator contract *)

Module contract_extra.
Import mr.

Section contract_extra.

Variable World : Type.
Variable exception : Type.
Variable stream_view : Type.
Variable stream_view_default : stream_view.
Variable synchronize : stream_view -> Eff World exception unit.

Local Abbreviation memory_resource := (mr.memory_resource World exception).
Local Abbreviation stream_ordered_memory_resource :=
  (mr.stream_ordered_memory_resource World exception stream_view).

(** X1: adaptors over resources that inherit [do_is_equal] compare equal
    exactly when they wrap the same object, so between them [is_equal] is
    symmetric. *)
Theorem pmr_adaptors_over_inheriting_resources (pa pb : address)
    (a b : memory_resource host) (w : World) :
  do_is_equal_override a = None -> do_is_equal_override b = None ->
  (pmr_is_equal (pmr_adaptor pa a) (pmr_adaptor pb b) w = true <-> this a = this b)
  /\ pmr_is_equal (pmr_adaptor pa a) (pmr_adaptor pb b) w
     = pmr_is_equal (pmr_adaptor pb b) (pmr_adaptor pa a) w.
Proof.
  intros Ha Hb. cbn [pmr_is_equal]. unfold pmr_adaptor_do_is_equal.
  cbn [dynamic_cast_pmr_adaptor_base]. unfold is_equal, do_is_equal. rewrite Ha, Hb.
  unfold memory_resource_do_is_equal. rewrite !orb_diag. split.
  - rewrite bool_decide_eq_true. split; congruence.
  - apply bool_decide_ext. split; congruence.
Qed.

(** X2: a stream-ordered resource that does not override [do_is_equal] is
    compared by identity through its [memory_resource] base: two such
    resources are equal exactly when they are the same object. *)
Theorem stream_ordered_is_equal_is_identity {K}
    (r1 r2 : stream_ordered_memory_resource K) (w : World) :
  so_do_is_equal_override r1 = None ->
  (is_equal (as_memory_resource stream_view_default synchronize r1)
            (as_memory_resource stream_view_default synchronize r2) w = true
   <-> so_this r1 = so_this r2).
Proof.
  intros H1. unfold is_equal, do_is_equal, as_memory_resource.
  cbn [do_is_equal_override this]. rewrite H1.
  apply bool_decide_eq_true.
Qed.

End contract_extra.

Import examples.

Local Open Scope N_scope.

Lemma pmr_adaptors_over_inheriting_resources_witness :
  do_is_equal_override (plain_host_resource 1) = None
  /\ do_is_equal_override (plain_host_resource 2) = None
  /\ ((pmr_is_equal (pmr_adaptor 10 (plain_host_resource 1))
                    (pmr_adaptor 11 (plain_host_resource 2)) [] = true
       <-> this (plain_host_resource 1) = this (plain_host_resource 2))
      /\ pmr_is_equal (pmr_adaptor 10 (plain_host_resource 1))
                      (pmr_adaptor 11 (plain_host_resource 2)) []
         = pmr_is_equal (pmr_adaptor 11 (plain_host_resource 2))
                        (pmr_adaptor 10 (plain_host_resource 1)) []).
Proof.
  split; [reflexivity |]. split; [reflexivity |].
  apply (@pmr_adaptors_over_inheriting_resources trace string 10 11
           (plain_host_resource 1) (plain_host_resource 2) []); reflexivity.
Defined.

Lemma stream_ordered_is_equal_is_identity_witness :
  so_do_is_equal_override bump_resource = None
  /\ (is_equal (as_memory_resource 0 synchronize_recorded bump_resource)
               (as_memory_resource 0 synchronize_recorded bump_resource) [] = true
      <-> so_this bump_resource = so_this bump_resource).
Proof.
  split; [reflexivity |].
  apply (@stream_ordered_is_equal_is_identity trace string N 0 synchronize_recorded
           device bump_resource bump_resource []).
  reflexivity.
Defined.

End contract_extra.

(** ** More on the registry of the binding *)

Module registry_extra.
Import binding logic examples selection registry.

Local Open Scope eff_scope.

(** *** Ownership through the upstream of a wrapper *)

Lemma owned_upstream (st : module_state) (r : py_ref) (o : py_object) (p u : c_ptr)
    (n : native_object) :
  objects st !! r = Some o -> c_obj o = Some p ->
  native st !! p = Some n -> upstream_of (wrapped n) = Some u ->
  u ∈ owned st.
Proof.
  intros Hr Hp Hn Hu. unfold owned. apply list_elem_of_bind.
  exists (Some p). split.
  - assert (size (native st) <> 0) as Hsize.
    { intros Hz. apply map_size_empty_iff in Hz. rewrite Hz in Hn.
      rewrite lookup_empty in Hn. discriminate. }
    destruct (size (native st)) as [| f]; [contradiction |].
    cbn. rewrite Hn, Hu. right. left.
  - unfold holders. right. apply list_elem_of_fmap.
    exists (r, o). split; [now rewrite <- Hp |].
    now apply elem_of_map_to_list.
Qed.

Lemma release_unowned_keeps_upstream (st : module_state) (r : py_ref) (o : py_object)
    (p u : c_ptr) (n : native_object) :
  objects st !! r = Some o -> c_obj o = Some p ->
  native st !! p = Some n -> upstream_of (wrapped n) = Some u ->
  native (release_unowned st) !! u = native st !! u.
Proof.
  intros Hr Hp Hn Hu. cbn. rewrite map_lookup_filter.
  destruct (native st !! u) as [m |]; [cbn | reflexivity].
  rewrite option_guard_True; [reflexivity |]. cbn. eapply owned_upstream; eauto.
Qed.

(** *** Conversion of the arguments *)

Lemma to_size_t_in_range (z : Z) (st : module_state) :
  size_t_range z -> to_size_t z st = (Return (Z.to_N z), st).
Proof.
  intros [Hlo Hhi]. unfold to_size_t.
  destruct (decide (z < 0)%Z); [lia |].
  destruct (decide (SIZE_MAX < z)%Z); [lia | reflexivity].
Qed.

Lemma to_size_t_out_of_range (z : Z) :
  ~ size_t_range z ->
  exists msg, forall st, to_size_t z st = (Raise (OverflowError msg), st).
Proof.
  intros Hout. unfold to_size_t.
  destruct (decide (z < 0)%Z); [eexists; reflexivity |].
  destruct (decide (SIZE_MAX < z)%Z); [eexists; reflexivity |].
  exfalso. apply Hout. unfold size_t_range. lia.
Qed.

Lemma to_vector_int_in_range (l : list Z) (st : module_state) :
  Forall int_range l -> to_vector_int l st = (Return l, st).
Proof.
  induction 1 as [| z l Hz Hl IH]; [reflexivity |].
  cbn [to_vector_int]. unfold bind, to_int.
  destruct (decide (INT_MIN <= z <= INT_MAX)%Z); [| contradiction].
  unfold ret at 1. now rewrite IH.
Qed.

Lemma to_vector_int_out_of_range (l : list Z) :
  ~ Forall int_range l ->
  exists msg, forall st, to_vector_int l st = (Raise (OverflowError msg), st).
Proof.
  induction l as [| z l IH]; intros Hout; [exfalso; apply Hout; constructor |].
  cbn [to_vector_int]. unfold bind, to_int.
  destruct (decide (INT_MIN <= z <= INT_MAX)%Z) as [Hz | Hz]; [| eexists; reflexivity].
  unfold ret at 1.
  destruct IH as [msg IH]; [intros Hl; apply Hout; now constructor |].
  exists msg. intros st. now rewrite IH.
Qed.

Lemma size_t_range_dec (z : Z) : size_t_range z \/ ~ size_t_range z.
Proof. unfold size_t_range. lia. Qed.

Lemma int_range_dec (l : list Z) : Forall int_range l \/ ~ Forall int_range l.
Proof.
  induction l as [| z l [IH | IH]].
  - left. constructor.
  - assert (int_range z \/ ~ int_range z) as [Hz | Hz] by (unfold int_range; lia).
    + left. now constructor.
    + right. intros H. inversion H. contradiction.
  - right. intros H. inversion H. contradiction.
Qed.

Lemma args_convert_dec (pool_allocator : bool) (initial_pool_size : option Z)
    (devices : py_devices) :
  args_convert pool_allocator initial_pool_size devices
  \/ ~ args_convert pool_allocator initial_pool_size devices.
Proof.
  unfold args_convert. destruct pool_allocator; [| left; discriminate].
  destruct (size_t_range_dec (prepared_pool_size initial_pool_size)) as [Hs | Hs];
    [| right; intros H; now destruct (H eq_refl)].
  destruct (int_range_dec (prepared_devices devices)) as [Hd | Hd];
    [left; now split | right; intros H; now destruct (H eq_refl)].
Qed.

(** *** Construction, step by step *)

Lemma construct_cinit_with (t : py_type) (w : wrapper) (st : module_state) :
  cxx_new st (native st) w = None ->
  let r := fresh (dom (objects st)) in
  let p := fresh (dom (native st)) in
  exists st',
    construct t (cinit_with w) st = (Return r, st')
    /\ made st t w r p st'.
Proof.
  intros Hnew r p. pose proof (fresh_object_absent st) as Hr. fold r in Hr.
  pose proof (fresh_native_absent st) as Hp. fold p in Hp.
  unfold construct, bind, tp_new, cinit_with, bind, new_wrapper, c_obj_reset.
  fold r. cbn [objects native set_objects set_native cxx_new]. rewrite Hnew. fold p.
  cbn [objects native set_objects set_native]. rewrite lookup_insert_eq. cbn [ob_refcnt ob_type].
  eexists. split; [reflexivity |].
  split; [exact Hr |]. split; [exact Hp |].
  split; [cbn; now rewrite insert_insert_eq |].
  split; [reflexivity |]. split; [reflexivity |].
  split; [| split; [reflexivity |]].
  - erewrite release_unowned_keeps with (r := r);
      [| cbn; now rewrite lookup_insert_eq | reflexivity].
    cbn. now rewrite lookup_insert_eq.
  - intros x ox q Hx Hq [n Hn].
    assert (x <> r) as Hxr by (intros ->; rewrite Hr in Hx; discriminate).
    assert (q <> p) as Hqp by (intros ->; rewrite Hp in Hn; discriminate).
    erewrite release_unowned_keeps with (r := x) (o := ox);
      [| cbn; rewrite insert_insert_eq, lookup_insert_ne by auto; exact Hx | exact Hq].
    cbn. now rewrite lookup_insert_ne by auto.
Qed.

Lemma construct_cinit_with_refused (t : py_type) (w : wrapper) (st : module_state)
    (e : py_exception) :
  cxx_new st (native st) w = Some e ->
  exists st', construct t (cinit_with w) st = (Raise e, st')
              /\ objects st' = objects st /\ _mr st' = _mr st /\ cxx_new st' = cxx_new st.
Proof.
  intros Hnew. unfold construct, bind, tp_new, cinit_with, bind, new_wrapper.
  cbn [objects native set_objects set_native cxx_new]. rewrite Hnew.
  unfold Py_DECREF, raise. cbn [objects set_objects]. rewrite lookup_insert_eq.
  cbn [ob_refcnt]. destruct (decide (1 <= 1)); [| lia].
  eexists. split; [reflexivity |]. split; [| split; reflexivity].
  cbn. rewrite delete_insert_eq. apply delete_id, fresh_object_absent.
Qed.

Lemma construct_over_upstream (t : py_type) (mk : shared_ptr -> wrapper)
    (up : py_ref) (oup : py_object) (st : module_state) :
  objects st !! up = Some oup ->
  cxx_new st (native st) (mk (c_obj oup)) = None ->
  let r := fresh (dom (objects st)) in
  let p := fresh (dom (native st)) in
  exists st',
    construct t (fun self => let! u := read_c_obj (Some up) in cinit_with (mk u) self) st
    = (Return r, st')
    /\ made st t (mk (c_obj oup)) r p st'.
Proof.
  intros Hup Hnew r p. pose proof (fresh_object_absent st) as Hr. fold r in Hr.
  pose proof (fresh_native_absent st) as Hp. fold p in Hp.
  assert (r <> up) as Hne by (intros Heq; rewrite Heq, Hup in Hr; discriminate).
  unfold construct, bind, tp_new, read_c_obj. fold r.
  cbn [objects set_objects]. rewrite lookup_insert_ne, Hup by assumption.
  unfold cinit_with, bind, new_wrapper, c_obj_reset.
  cbn [objects native set_objects set_native cxx_new]. rewrite Hnew. fold p.
  cbn [objects native set_objects set_native].
  rewrite lookup_insert_eq. cbn [ob_refcnt ob_type].
  eexists. split; [reflexivity |].
  split; [exact Hr |]. split; [exact Hp |].
  split; [cbn; now rewrite insert_insert_eq |].
  split; [reflexivity |]. split; [reflexivity |].
  split; [| split; [reflexivity |]].
  - erewrite release_unowned_keeps with (r := r);
      [| cbn; now rewrite lookup_insert_eq | reflexivity].
    cbn. now rewrite lookup_insert_eq.
  - intros x ox q Hx Hq [n Hn].
    assert (x <> r) as Hxr by (intros ->; rewrite Hr in Hx; discriminate).
    assert (q <> p) as Hqp by (intros ->; rewrite Hp in Hn; discriminate).
    erewrite release_unowned_keeps with (r := x) (o := ox);
      [| cbn; rewrite insert_insert_eq, lookup_insert_ne by auto; exact Hx | exact Hq].
    cbn. now rewrite lookup_insert_ne by auto.
Qed.

Lemma construct_over_upstream_refused (t : py_type) (mk : shared_ptr -> wrapper)
    (up : py_ref) (oup : py_object) (st : module_state) (e : py_exception) :
  objects st !! up = Some oup ->
  cxx_new st (native st) (mk (c_obj oup)) = Some e ->
  exists st',
    construct t (fun self => let! u := read_c_obj (Some up) in cinit_with (mk u) self) st
    = (Raise e, st')
    /\ objects st' = objects st /\ _mr st' = _mr st /\ cxx_new st' = cxx_new st.
Proof.
  intros Hup Hnew. pose proof (fresh_object_absent st) as Hr.
  set (r := fresh (dom (objects st))) in *.
  assert (r <> up) as Hne by (intros Heq; rewrite Heq, Hup in Hr; discriminate).
  unfold construct, bind, tp_new, read_c_obj. fold r.
  cbn [objects set_objects]. rewrite lookup_insert_ne, Hup by assumption.
  unfold cinit_with, bind, new_wrapper.
  cbn [objects native set_objects set_native cxx_new]. rewrite Hnew.
  unfold Py_DECREF, raise. cbn [objects set_objects]. rewrite lookup_insert_eq.
  cbn [ob_refcnt]. destruct (decide (1 <= 1)); [| lia].
  eexists. split; [reflexivity |]. split; [| split; reflexivity].
  cbn. rewrite delete_insert_eq. now apply delete_id.
Qed.

Lemma LoggingResourceAdaptor_new_explicit (upstream : option py_ref) (b : string)
    (st : module_state) :
  LoggingResourceAdaptor_new upstream (py_bytes b) st
  = construct LoggingResourceAdaptor
      (fun self => let! u := read_c_obj upstream in
                   cinit_with (logging_resource_adaptor_wrapper u b) self) st.
Proof. reflexivity. Qed.

(** *** The two assignments to [_mr] in [_initialize] *)

Lemma install_empty_returns (st : module_state) :
  registry_wf st ->
  let r := fresh (dom (objects st)) in
  exists st',
    with_owned r (assign__mr (Some r)) (set_objects <[r := empty_resource]> st)
    = (Return tt, st')
    /\ kept r st'
    /\ cxx_new st' = cxx_new st.
Proof.
  intros Hwf r. pose proof (fresh_object_absent st) as Hfresh. fold r in Hfresh.
  unfold with_owned, assign__mr, bind, Py_XINCREF, Py_INCREF, get, modify.
  cbn [objects set_objects]. rewrite lookup_insert_eq. cbn [_mr set_objects set__mr].
  destruct (_mr st) as [old |] eqn:Hold.
  - destruct (Hwf old Hold) as [o Ho].
    assert (old <> r) as Hne by (intros ->; rewrite Hfresh in Ho; discriminate).
    unfold Py_XDECREF, Py_DECREF. cbn [objects set_objects set__mr].
    rewrite insert_insert_eq, lookup_insert_ne, Ho by auto.
    destruct (decide (ob_refcnt o <= 1)); cbn [objects set_objects set__mr tp_dealloc
                                                release_unowned set_native].
    + rewrite lookup_delete_ne, lookup_insert_eq by auto. cbn [ob_refcnt incref empty_resource].
      destruct (decide (2 <= 1)); [lia |]. unfold ret.
      eexists. split; [reflexivity |]. split; [| reflexivity].
      split; [reflexivity |]. cbn. now rewrite lookup_insert_eq.
    + rewrite lookup_insert_ne, lookup_insert_eq by auto. cbn [ob_refcnt incref empty_resource].
      destruct (decide (2 <= 1)); [lia |]. unfold ret.
      eexists. split; [reflexivity |]. split; [| reflexivity].
      split; [reflexivity |]. cbn. now rewrite lookup_insert_eq.
  - unfold Py_XDECREF, ret, Py_DECREF. cbn [objects set_objects set__mr].
    rewrite insert_insert_eq, lookup_insert_eq. cbn [ob_refcnt incref empty_resource].
    destruct (decide (2 <= 1)); [lia |].
    eexists. split; [reflexivity |]. split; [| reflexivity].
    split; [reflexivity |]. cbn. now rewrite lookup_insert_eq.
Qed.

(** [_set_default_resource(mr)] for a local [mr], released afterwards,
    when the registry holds the empty resource: the empty resource is
    deallocated, [mr] ends with the references it had, and the wrapper of
    [mr] and the upstream of that wrapper stay. *)
Lemma install_over_empty (st : module_state) (r0 r : py_ref) (o : py_object) (p : c_ptr)
    (n : native_object) :
  kept r0 st -> objects st !! r = Some o -> r <> r0 ->
  0 < ob_refcnt o -> c_obj o = Some p -> native st !! p = Some n ->
  exists st',
    with_owned r (_set_default_resource (Some r)) st = (Return tt, st')
    /\ _mr st' = Some r
    /\ objects st' = <[r := o]> (delete r0 (objects st))
    /\ default_resource st' = Some p
    /\ environ st' = environ st
    /\ native st' !! p = Some n
    /\ forall u, upstream_of (wrapped n) = Some u -> native st' !! u = native st !! u.
Proof.
  intros [Hmr Hr0] Hr Hne Hcnt Hp Hn.
  unfold with_owned, _set_default_resource, bind, assign__mr, bind, Py_XINCREF, Py_INCREF.
  rewrite Hr. unfold get, modify. cbn [_mr set_objects set__mr]. rewrite Hmr.
  unfold Py_XDECREF, Py_DECREF. cbn [objects set_objects set__mr].
  rewrite lookup_insert_ne, Hr0 by assumption. cbn [ob_refcnt empty_resource].
  destruct (decide (1 <= 1)); [| lia].
  set (S1 := set_objects (delete r0)
               (set__mr (Some r) (set_objects <[r := incref o]> st))).
  assert (objects S1 !! r = Some (incref o)) as Hr1
    by (cbn; rewrite lookup_delete_ne by auto; apply lookup_insert_eq).
  assert (native (release_unowned S1) !! p = Some n) as Hp1
    by (erewrite release_unowned_keeps; [exact Hn | exact Hr1 | exact Hp]).
  unfold tp_dealloc. fold S1. unfold read_c_obj.
  change (_mr (release_unowned S1)) with (Some r). cbv iota.
  change (objects (release_unowned S1)) with (objects S1). rewrite Hr1.
  cbn [c_obj incref]. rewrite Hp.
  unfold set_default_resource, modify.
  set (S2 := set_default_resource_slot (Some p) (release_unowned S1)).
  assert (objects S2 !! r = Some (incref o)) as Hr2 by exact Hr1.
  change (objects (release_unowned S2)) with (objects S1). rewrite Hr1.
  cbn [ob_refcnt incref]. destruct (decide (S (ob_refcnt o) <= 1)); [lia |].
  unfold ret.
  eexists. split; [reflexivity |].
  split; [reflexivity |].
  split.
  { apply map_eq. intros i. cbn.
    destruct (decide (i = r)) as [-> | Hi];
      [rewrite !lookup_insert_eq; destruct o; reflexivity |].
    rewrite !lookup_insert_ne by auto.
    destruct (decide (i = r0)) as [-> | Hi0]; [now rewrite !lookup_delete_eq |].
    rewrite !lookup_delete_ne by auto. now rewrite lookup_insert_ne by auto. }
  split; [reflexivity |]. split; [reflexivity |].
  split.
  - cbn [native set_objects].
    erewrite release_unowned_keeps; [exact Hp1 | exact Hr2 | exact Hp].
  - intros u Hu. cbn [native set_objects].
    erewrite release_unowned_keeps_upstream; [| exact Hr2 | exact Hp | exact Hp1 | exact Hu].
    change (native S2) with (native (release_unowned S1)).
    erewrite release_unowned_keeps_upstream; [| exact Hr1 | exact Hp | exact Hn | exact Hu].
    reflexivity.
Qed.

Lemma Py_DECREF_last (r : py_ref) (o : py_object) (st : module_state) :
  objects st !! r = Some o -> ob_refcnt o <= 1 ->
  Py_DECREF r st = (Return tt, tp_dealloc r st).
Proof.
  intros Hr Hcnt. unfold Py_DECREF. rewrite Hr.
  destruct (decide (ob_refcnt o <= 1)); [reflexivity | contradiction].
Qed.

Lemma bind_return {A B} (m : M A) (k : A -> M B) (st st' : module_state) (a : A) :
  m st = (Return a, st') -> bind m k st = k a st'.
Proof. intros H. unfold bind. now rewrite H. Qed.

(** *** The call of [typ] on [args] *)

Lemma typ_args_in_range (pool_allocator managed_memory : bool)
    (initial_pool_size : option Z) (devices : py_devices) (st : module_state) :
  args_convert pool_allocator initial_pool_size devices ->
  typ_args pool_allocator managed_memory initial_pool_size devices st
  = construct (selected_type pool_allocator managed_memory)
      (cinit_with (selected_wrapper pool_allocator managed_memory initial_pool_size devices))
      st.
Proof.
  intros Hargs. unfold typ_args, selected_type, selected_wrapper.
  destruct pool_allocator; cbn [negb]; [| now destruct managed_memory].
  destruct (Hargs eq_refl) as [Hsize Hdev].
  destruct managed_memory; cbn [negb];
    unfold CNMemManagedMemoryResource_new, CNMemMemoryResource_new, construct, bind, tp_new;
    now rewrite (to_size_t_in_range _ Hsize), (to_vector_int_in_range _ Hdev).
Qed.

(** The conversion of the two arguments of the pool classes fails. *)
Lemma pool_args_out_of_range (initial_pool_size : Z) (devices : list Z) {A}
    (k : N -> list Z -> M A) :
  ~ (size_t_range initial_pool_size /\ Forall int_range devices) ->
  exists msg, forall st,
    (let! n := to_size_t initial_pool_size in
     let! v := to_vector_int devices in
     k n v) st = (Raise (OverflowError msg), st).
Proof.
  intros Hout.
  destruct (size_t_range_dec initial_pool_size) as [Hs | Hs].
  - destruct (int_range_dec devices) as [Hd | Hd]; [exfalso; apply Hout; now split |].
    destruct (to_vector_int_out_of_range Hd) as [msg Hmsg].
    exists msg. intros st. unfold bind.
    now rewrite (to_size_t_in_range _ Hs), Hmsg.
  - destruct (to_size_t_out_of_range Hs) as [msg Hmsg].
    exists msg. intros st. unfold bind. now rewrite Hmsg.
Qed.

Lemma typ_args_out_of_range (pool_allocator managed_memory : bool)
    (initial_pool_size : option Z) (devices : py_devices) (st : module_state) :
  ~ args_convert pool_allocator initial_pool_size devices ->
  exists msg st',
    typ_args pool_allocator managed_memory initial_pool_size devices st
    = (Raise (OverflowError msg), st')
    /\ objects st' = objects st /\ _mr st' = _mr st /\ cxx_new st' = cxx_new st.
Proof.
  intros Hargs. unfold typ_args.
  destruct pool_allocator; cbn [negb]; [| exfalso; apply Hargs; discriminate].
  assert (~ (size_t_range (prepared_pool_size initial_pool_size)
             /\ Forall int_range (prepared_devices devices))) as Hout
    by (intros H; apply Hargs; intros _; exact H).
  destruct managed_memory; cbn [negb].
  - destruct (pool_args_out_of_range
                (fun n v => cinit_with (cnmem_managed_memory_resource_wrapper n v)
                              (fresh (dom (objects st)))) Hout) as [msg Hmsg].
    exists msg. unfold CNMemManagedMemoryResource_new.
    rewrite construct_unfold. cbv zeta. rewrite Hmsg.
    unfold Py_DECREF. cbn [objects set_objects]. rewrite lookup_insert_eq.
    cbn [ob_refcnt]. destruct (decide (1 <= 1)); [| lia].
    eexists. split; [reflexivity |]. split; [| split; reflexivity].
    cbn. rewrite delete_insert_eq. apply delete_id, fresh_object_absent.
  - destruct (pool_args_out_of_range
                (fun n v => cinit_with (cnmem_memory_resource_wrapper n v)
                              (fresh (dom (objects st)))) Hout) as [msg Hmsg].
    exists msg. unfold CNMemMemoryResource_new.
    rewrite construct_unfold. cbv zeta. rewrite Hmsg.
    unfold Py_DECREF. cbn [objects set_objects]. rewrite lookup_insert_eq.
    cbn [ob_refcnt]. destruct (decide (1 <= 1)); [| lia].
    eexists. split; [reflexivity |]. split; [| split; reflexivity].
    cbn. rewrite delete_insert_eq. apply delete_id, fresh_object_absent.
Qed.

(** *** [_initialize] after its first statement *)

Lemma initialize_unfolds (pool_allocator managed_memory : bool)
    (initial_pool_size : option Z) (devices : py_devices) (logging : bool)
    (log_file_name : py_text) (st : module_state) :
  registry_wf st ->
  exists r0 s2,
    objects st !! r0 = None /\ kept r0 s2 /\ cxx_new s2 = cxx_new st
    /\ _initialize pool_allocator managed_memory initial_pool_size devices logging
         log_file_name st
       = initialize_from (typ_args pool_allocator managed_memory initial_pool_size devices)
           logging log_file_name s2.
Proof.
  intros Hwf. destruct (install_empty_returns Hwf) as (s2 & Hrun & Hkept & Hcxx).
  exists (fresh (dom (objects st))), s2.
  split; [apply fresh_object_absent |]. split; [exact Hkept |]. split; [exact Hcxx |].
  unfold _initialize. erewrite bind_return; [| apply MemoryResource_new_eq].
  erewrite bind_return; [| exact Hrun].
  destruct pool_allocator, managed_memory; reflexivity.
Qed.

(** The call of [typ] raises: so does [_initialize], at once. *)
Lemma initialize_from_raise (make : M py_ref) (logging : bool) (log_file_name : py_text)
    (st st1 : module_state) (e : py_exception) :
  make st = (Raise e, st1) ->
  initialize_from make logging log_file_name st = (Raise e, st1).
Proof. intros H. unfold initialize_from, bind. destruct logging; now rewrite H. Qed.

(** What [made] says about the object made and about the empty resource
    the registry holds. *)
Lemma made_kept (st : module_state) (t : py_type) (w : wrapper) (r1 : py_ref) (p1 : c_ptr)
    (s3 : module_state) (r0 : py_ref) :
  kept r0 st -> made st t w r1 p1 s3 ->
  r1 <> r0 /\ objects s3 !! r1 = Some (constructed t p1) /\ kept r0 s3.
Proof.
  intros [Hmr Hr0] (Hr1 & _ & Hobj & Hmr3 & _).
  assert (r1 <> r0) as Hne by (intros ->; rewrite Hr0 in Hr1; discriminate).
  split; [exact Hne |]. split; [rewrite Hobj; apply lookup_insert_eq |].
  split; [congruence |]. rewrite Hobj, lookup_insert_ne by assumption. exact Hr0.
Qed.

(** Without logging the object made is installed. *)
Lemma initialize_from_installs (make : M py_ref) (log_file_name : py_text)
    (st : module_state) (r0 : py_ref) (t : py_type) (w : wrapper) (r1 : py_ref)
    (p1 : c_ptr) (s3 : module_state) :
  kept r0 st -> make st = (Return r1, s3) -> made st t w r1 p1 s3 ->
  exists st',
    initialize_from make false log_file_name st = (Return tt, st')
    /\ _mr st' = Some r1
    /\ objects st' !! r1 = Some (constructed t p1)
    /\ native st' !! p1 = Some (created w)
    /\ default_resource st' = Some p1.
Proof.
  intros Hkept Hmake Hmade.
  destruct (made_kept Hkept Hmade) as (Hne & Hr1 & Hkept3).
  destruct Hmade as (_ & _ & _ & _ & _ & Hp1 & _).
  destruct (@install_over_empty s3 r0 r1 (constructed t p1) p1 _
              Hkept3 Hr1 Hne ltac:(cbn; lia) eq_refl Hp1)
    as (st' & Hrun & Hmr' & Hobj' & Hdef' & _ & Hp' & _).
  exists st'. unfold initialize_from. erewrite bind_return; [| exact Hmake].
  split; [exact Hrun |]. split; [exact Hmr' |].
  split; [rewrite Hobj'; apply lookup_insert_eq |].
  split; [exact Hp' | exact Hdef'].
Qed.

(** With logging and a name that is no [str], [encode] raises and the
    object made is released. *)
Lemma initialize_from_encode_raises (make : M py_ref) (log_file_name : py_text)
    (st : module_state) (r0 : py_ref) (t : py_type) (w : wrapper) (r1 : py_ref)
    (p1 : c_ptr) (s3 : module_state) :
  kept r0 st -> make st = (Return r1, s3) -> made st t w r1 p1 s3 ->
  (forall s, log_file_name <> py_str s) ->
  exists st',
    initialize_from make true log_file_name st
    = (Raise (AttributeError match log_file_name with
                             | py_bytes _ => bytes_encode_message
                             | _ => encode_message
                             end), st')
    /\ kept r0 st'.
Proof.
  intros Hkept Hmake Hmade Hname.
  destruct (made_kept Hkept Hmade) as (Hne & Hr1 & Hkept3).
  exists (tp_dealloc r1 s3). unfold initialize_from, bind. rewrite Hmake.
  unfold with_owned, bind.
  assert (kept r0 (tp_dealloc r1 s3)) as Hkept'.
  { destruct Hkept3 as [Hmr3 Hr03]. split; [exact Hmr3 |].
    cbn. now rewrite lookup_delete_ne by auto. }
  destruct log_file_name as [| s | b]; [| now destruct (Hname s) |];
    unfold str_encode, raise;
    rewrite (@Py_DECREF_last r1 (constructed t p1) s3 Hr1) by (cbn; lia);
    (split; [reflexivity | exact Hkept']).
Qed.

(** With logging and a [str] the adaptor is constructed over the object
    made, which is then released: the adaptor is installed, or its C++
    constructor throws and nothing is. *)
Lemma initialize_from_logging (make : M py_ref) (s : string)
    (st : module_state) (r0 : py_ref) (t : py_type) (w : wrapper) (r1 : py_ref)
    (p1 : c_ptr) (s3 : module_state) :
  kept r0 st -> make st = (Return r1, s3) -> made st t w r1 p1 s3 ->
  match cxx_new st (native s3) (logging_resource_adaptor_wrapper (Some p1) s) with
  | Some e =>
      exists st', initialize_from make true (py_str s) st = (Raise e, st') /\ kept r0 st'
  | None =>
      exists st' r p,
        initialize_from make true (py_str s) st = (Return tt, st')
        /\ _mr st' = Some r
        /\ objects st' !! r = Some (constructed LoggingResourceAdaptor p)
        /\ native st' !! p = Some (created (logging_resource_adaptor_wrapper (Some p1) s))
        /\ native st' !! p1 = Some (created w)
        /\ default_resource st' = Some p
  end.
Proof.
  intros Hkept Hmake Hmade.
  destruct (made_kept Hkept Hmade) as (Hne1 & Hr1 & Hkept3).
  destruct Hmade as (_ & _ & _ & _ & _ & Hp1 & Hcxx3 & _).
  destruct (cxx_new st (native s3) (logging_resource_adaptor_wrapper (Some p1) s))
    as [e |] eqn:Hnew; rewrite <- Hcxx3 in Hnew.
  - (* the adaptor is refused; the object made is released *)
    destruct (@construct_over_upstream_refused LoggingResourceAdaptor
                (fun u => logging_resource_adaptor_wrapper u s) r1 _ s3 e Hr1 Hnew)
      as (s4 & Hrun4 & Hobj4 & Hmr4 & _).
    assert (objects s4 !! r1 = Some (constructed t p1)) as Hr14 by (now rewrite Hobj4).
    exists (tp_dealloc r1 s4). unfold initialize_from, bind. rewrite Hmake.
    unfold with_owned, bind, str_encode, ret.
    rewrite LoggingResourceAdaptor_new_explicit, Hrun4. unfold raise.
    rewrite (@Py_DECREF_last r1 (constructed t p1) s4 Hr14) by (cbn; lia).
    split; [reflexivity |].
    destruct Hkept3 as [Hmr3 Hr03]. split; [cbn; congruence |].
    cbn. rewrite lookup_delete_ne by auto. now rewrite Hobj4.
  - (* the adaptor is built over the object made, which is released *)
    destruct (@construct_over_upstream LoggingResourceAdaptor
                (fun u => logging_resource_adaptor_wrapper u s) r1 _ s3 Hr1 Hnew)
      as (s4 & Hrun4 & Hfresh2 & _ & Hobj4 & Hmr4 & Hdef4 & Hp2 & _ & Hframe4).
    set (r2 := fresh (dom (objects s3))) in *. set (p2 := fresh (dom (native s3))) in *.
    assert (r2 <> r1) as Hne21 by (intros Heq; rewrite Heq, Hr1 in Hfresh2; discriminate).
    assert (r2 <> r0) as Hne20.
    { intros Heq. destruct Hkept3 as [_ H0]. rewrite Heq, H0 in Hfresh2. discriminate. }
    assert (objects s4 !! r1 = Some (constructed t p1)) as Hr14
      by (rewrite Hobj4, lookup_insert_ne by assumption; exact Hr1).
    assert (objects s4 !! r2 = Some (constructed LoggingResourceAdaptor p2)) as Hr24
      by (rewrite Hobj4; apply lookup_insert_eq).
    assert (native s4 !! p1 = Some (created w)) as Hp14.
    { rewrite (Hframe4 r1 (constructed t p1) p1 Hr1 eq_refl); [exact Hp1 |].
      rewrite Hp1. eauto. }
    set (s5 := tp_dealloc r1 s4).
    assert (objects s5 !! r2 = Some (constructed LoggingResourceAdaptor p2)) as Hr25
      by (cbn; rewrite lookup_delete_ne by auto; exact Hr24).
    assert (kept r0 s5) as Hkept5.
    { split; [cbn; destruct Hkept3; congruence |]. cbn. rewrite lookup_delete_ne by auto.
      rewrite Hobj4, lookup_insert_ne by auto. apply Hkept3. }
    assert (native s5 !! p2
            = Some (created (logging_resource_adaptor_wrapper (Some p1) s))) as Hp25.
    { unfold s5, tp_dealloc.
      erewrite release_unowned_keeps with (r := r2);
        [exact Hp2 | cbn; rewrite lookup_delete_ne by auto; exact Hr24 | reflexivity]. }
    assert (native s5 !! p1 = Some (created w)) as Hp15.
    { unfold s5, tp_dealloc.
      erewrite release_unowned_keeps_upstream with (r := r2) (p := p2);
        [exact Hp14 | cbn; rewrite lookup_delete_ne by auto; exact Hr24
         | reflexivity | exact Hp2 | reflexivity]. }
    assert ((let! upstream := make in
             with_owned upstream
               (let! name := str_encode (py_str s) in
                LoggingResourceAdaptor_new (Some upstream) name)) st
            = (Return r2, s5)) as Hup.
    { unfold bind at 1. rewrite Hmake. unfold with_owned, bind, str_encode, ret.
      rewrite LoggingResourceAdaptor_new_explicit, Hrun4.
      now rewrite (@Py_DECREF_last r1 (constructed t p1) s4 Hr14) by (cbn; lia). }
    destruct (@install_over_empty s5 r0 r2 (constructed LoggingResourceAdaptor p2) p2 _
                Hkept5 Hr25 Hne20 ltac:(cbn; lia) eq_refl Hp25)
      as (st' & Hrun & Hmr' & Hobj' & Hdef' & _ & Hp' & Hup').
    exists st', r2, p2. unfold initialize_from. erewrite bind_return; [| exact Hup].
    split; [exact Hrun |]. split; [exact Hmr' |].
    split; [rewrite Hobj'; apply lookup_insert_eq |].
    split; [exact Hp' |].
    split; [rewrite (Hup' p1 eq_refl); exact Hp15 | exact Hdef'].
Qed.

(** Past the conversion of the arguments and the constructor of the
    selected class, [_initialize] goes on with the object made. *)
Lemma initialize_constructs (pool_allocator managed_memory : bool)
    (initial_pool_size : option Z) (devices : py_devices) (logging : bool)
    (log_file_name : py_text) (st : module_state) :
  registry_wf st ->
  args_convert pool_allocator initial_pool_size devices ->
  constructible st (selected_wrapper pool_allocator managed_memory initial_pool_size devices) ->
  exists r0 s2 r1 p1 s3,
    kept r0 s2 /\ cxx_new s2 = cxx_new st
    /\ typ_args pool_allocator managed_memory initial_pool_size devices s2 = (Return r1, s3)
    /\ made s2 (selected_type pool_allocator managed_memory)
         (selected_wrapper pool_allocator managed_memory initial_pool_size devices) r1 p1 s3
    /\ _initialize pool_allocator managed_memory initial_pool_size devices logging
         log_file_name st
       = initialize_from (typ_args pool_allocator managed_memory initial_pool_size devices)
           logging log_file_name s2.
Proof.
  intros Hwf Hargs Hnew.
  destruct (initialize_unfolds pool_allocator managed_memory initial_pool_size devices
              logging log_file_name Hwf) as (r0 & s2 & _ & Hkept & Hcxx & Heq).
  assert (cxx_new s2 (native s2)
            (selected_wrapper pool_allocator managed_memory initial_pool_size devices)
          = None) as Hnew2 by (rewrite Hcxx; apply Hnew).
  destruct (construct_cinit_with (selected_type pool_allocator managed_memory) _ _ Hnew2)
    as (s3 & Hrun & Hmade).
  exists r0, s2, (fresh (dom (objects s2))), (fresh (dom (native s2))), s3.
  split; [exact Hkept |]. split; [exact Hcxx |].
  split; [now rewrite typ_args_in_range |]. split; [exact Hmade | exact Heq].
Qed.

(** [_initialize] raises and leaves the empty resource installed, or
    returns and has installed a resource of the selected class, or a
    logging adaptor, with a wrapper behind it. *)
Lemma initialize_cases (pool_allocator managed_memory : bool)
    (initial_pool_size : option Z) (devices : py_devices) (logging : bool)
    (log_file_name : py_text) (st : module_state) :
  registry_wf st ->
  (exists e r0 st',
      _initialize pool_allocator managed_memory initial_pool_size devices logging
        log_file_name st = (Raise e, st')
      /\ kept r0 st')
  \/ (exists st' r p n,
        _initialize pool_allocator managed_memory initial_pool_size devices logging
          log_file_name st = (Return tt, st')
        /\ _mr st' = Some r
        /\ objects st' !! r
           = Some (constructed (if logging then LoggingResourceAdaptor
                                else selected_type pool_allocator managed_memory) p)
        /\ native st' !! p = Some n).
Proof.
  intros Hwf.
  destruct (initialize_unfolds pool_allocator managed_memory initial_pool_size devices
              logging log_file_name Hwf) as (r0 & s2 & _ & Hkept & Hcxx & ->).
  set (w := selected_wrapper pool_allocator managed_memory initial_pool_size devices).
  set (t := selected_type pool_allocator managed_memory).
  destruct (args_convert_dec pool_allocator initial_pool_size devices) as [Hargs | Hargs].
  - pose proof (typ_args_in_range managed_memory s2 Hargs) as Hmake. fold w t in Hmake.
    destruct (cxx_new s2 (native s2) w) as [e |] eqn:Hnew.
    + destruct (construct_cinit_with_refused t _ _ Hnew) as (s3 & Hrun & Hobj & Hmr & _).
      left. exists e, r0, s3. rewrite <- Hmake in Hrun.
      split; [now apply initialize_from_raise |].
      destruct Hkept as [H1 H2]. split; congruence.
    + destruct (construct_cinit_with t _ _ Hnew) as (s3 & Hrun & Hmade).
      rewrite <- Hmake in Hrun. destruct logging.
      * destruct log_file_name as [| s | b].
        -- destruct (@initialize_from_encode_raises _ py_None _ _ _ _ _ _ _
                       Hkept Hrun Hmade ltac:(discriminate)) as (st' & Hres & Hkept').
           left. eauto.
        -- pose proof (@initialize_from_logging _ s _ _ _ _ _ _ _ Hkept Hrun Hmade) as Hlog.
           destruct (cxx_new s2 (native s3)
                       (logging_resource_adaptor_wrapper (Some (fresh (dom (native s2)))) s))
             as [e |].
           ++ destruct Hlog as (st' & Hres & Hkept'). left. eauto.
           ++ destruct Hlog as (st' & r & p & Hres & Hmr & Hr & Hp & _).
              right. exists st', r, p. eauto.
        -- destruct (@initialize_from_encode_raises _ (py_bytes b) _ _ _ _ _ _ _
                       Hkept Hrun Hmade ltac:(discriminate)) as (st' & Hres & Hkept').
           left. eauto.
      * destruct (@initialize_from_installs _ log_file_name _ _ _ _ _ _ _
                    Hkept Hrun Hmade) as (st' & Hres & Hmr & Hr & Hp & _).
        right. exists st', (fresh (dom (objects s2))), (fresh (dom (native s2))). eauto.
  - destruct (typ_args_out_of_range managed_memory s2 Hargs)
      as (msg & s3 & Hrun & Hobj & Hmr & _).
    left. exists (OverflowError msg), r0, s3.
    split; [now apply initialize_from_raise |].
    destruct Hkept as [H1 H2]. split; congruence.
Qed.

(** *** [_initialize]: outcome and result *)


(** X4: without logging, with arguments the parameters of the selected
    class accept and a constructor of the selected allocator that
    returns, [_initialize] installs a new resource of the class the two
    flags select, wrapping a new allocator built from the prepared
    arguments; the registry holds the only reference to it. *)
Theorem initialize_installs_selected (pool_allocator managed_memory : bool)
    (initial_pool_size : option Z) (devices : py_devices)
    (log_file_name : py_text) (st : module_state) :
  registry_wf st ->
  args_convert pool_allocator initial_pool_size devices ->
  constructible st (selected_wrapper pool_allocator managed_memory initial_pool_size devices) ->
  exists st' r p,
    _initialize pool_allocator managed_memory initial_pool_size devices false
      log_file_name st = (Return tt, st')
    /\ _mr st' = Some r
    /\ objects st' !! r = Some (constructed (selected_type pool_allocator managed_memory) p)
    /\ native st' !! p
       = Some (created (selected_wrapper pool_allocator managed_memory
                          initial_pool_size devices))
    /\ default_resource st' = Some p
    /\ get_default_resource_type st'
       = (Return (selected_type pool_allocator managed_memory), st')
    /\ is_initialized st' = (Return true, st').
Proof.
  intros Hwf Hargs Hnew.
  destruct (initialize_constructs managed_memory false log_file_name Hwf Hargs Hnew)
    as (r0 & s2 & r1 & p1 & s3 & Hkept & Hcxx & Hrun & Hmade & Heq).
  destruct (@initialize_from_installs _ log_file_name _ _ _ _ _ _ _ Hkept Hrun Hmade)
    as (st' & Hres & Hmr & Hr & Hp & Hdef).
  exists st', r1, p1. split; [rewrite Heq; exact Hres |].
  split; [exact Hmr |]. split; [exact Hr |]. split; [exact Hp |]. split; [exact Hdef |].
  split.
  - unfold get_default_resource_type. now rewrite Hmr, Hr.
  - now rewrite (@is_initialized_installed st' r1 _ Hmr Hr).
Qed.


(** X7: after a successful [_initialize], [_flush_logs] returns when logging
    was requested and raises [AttributeError] when it was not. *)
Theorem flush_logs_after_initialize (pool_allocator managed_memory : bool)
    (initial_pool_size : option Z) (devices : py_devices) (logging : bool)
    (log_file_name : py_text) (st st' : module_state) :
  registry_wf st ->
  _initialize pool_allocator managed_memory initial_pool_size devices logging
    log_file_name st = (Return tt, st') ->
  fst (_flush_logs st')
  = if logging then Return tt else Raise (AttributeError flush_message).
Proof.
  intros Hwf Hinit.
  destruct (initialize_cases pool_allocator managed_memory initial_pool_size devices
              logging log_file_name Hwf)
    as [(e & r0 & st'' & Hrun & _) | (st'' & r & p & n & Hrun & Hmr & Hr & Hp)];
    rewrite Hinit in Hrun; [discriminate |].
  injection Hrun as <-.
  unfold _flush_logs. rewrite Hmr, Hr. cbn [ob_type constructed]. destruct logging.
  - destruct (decide (LoggingResourceAdaptor = LoggingResourceAdaptor)); [| congruence].
    now rewrite (@flush_of_logging_adaptor st' r _ p _ Hr eq_refl Hp).
  - destruct (decide (selected_type pool_allocator managed_memory = LoggingResourceAdaptor))
      as [Heq | _]; [| reflexivity].
    destruct pool_allocator, managed_memory; discriminate.
Qed.

(** X8: whatever the outcome of [_initialize], the registry afterwards
    refers to a live object, so [is_initialized] has a result; the result
    is true exactly when [_initialize] returned. *)
Theorem is_initialized_after_initialize (pool_allocator managed_memory : bool)
    (initial_pool_size : option Z) (devices : py_devices) (logging : bool)
    (log_file_name : py_text) (st st' : module_state)
    (out : outcome py_exception unit) :
  registry_wf st ->
  _initialize pool_allocator managed_memory initial_pool_size devices logging
    log_file_name st = (out, st') ->
  registry_wf st' /\ registry_set st'
  /\ exists b, is_initialized st' = (Return b, st') /\ (b = true <-> out = Return tt).
Proof.
  intros Hwf Hinit.
  assert (forall r o, _mr st' = Some r -> objects st' !! r = Some o ->
            registry_wf st' /\ registry_set st') as Hset.
  { intros r o Hmr Hr. split.
    - intros r' Hr'. rewrite Hmr in Hr'. injection Hr' as <-. eauto.
    - now exists r, o. }
  destruct (initialize_cases pool_allocator managed_memory initial_pool_size devices
              logging log_file_name Hwf)
    as [(e & r0 & st'' & Hrun & [Hmr Hr]) | (st'' & r & p & n & Hrun & Hmr & Hr & Hp)];
    rewrite Hinit in Hrun; injection Hrun as -> ->.
  - destruct (Hset r0 _ Hmr Hr) as [H1 H2]. split; [exact H1 |]. split; [exact H2 |].
    exists false. split; [now rewrite (@is_initialized_installed st'' r0 _ Hmr Hr) |].
    split; discriminate.
  - destruct (Hset r _ Hmr Hr) as [H1 H2]. split; [exact H1 |]. split; [exact H2 |].
    exists true. split; [now rewrite (@is_initialized_installed st'' r _ Hmr Hr) |].
    split; reflexivity.
Qed.

(** X6: [_initialize] prepares its arguments before use: an absent
    [initial_pool_size] is 0, [devices] given as [None] is device 0, an
    [int] is the list of that one device; without [pool_allocator] the
    two are not used at all, and without [logging] neither is
    [log_file_name]. *)
Theorem initialize_argument_defaults (managed_memory logging : bool)
    (initial_pool_size : option Z) (devices : py_devices) (d : Z)
    (log_file_name : py_text) (pool_allocator : bool) (st : module_state) :
  _initialize true managed_memory None devices logging log_file_name st
  = _initialize true managed_memory (Some 0%Z) devices logging log_file_name st
  /\ _initialize true managed_memory initial_pool_size devices_None logging log_file_name st
    = _initialize true managed_memory initial_pool_size (devices_int 0) logging
        log_file_name st
  /\ _initialize true managed_memory initial_pool_size (devices_int d) logging
      log_file_name st
    = _initialize true managed_memory initial_pool_size (devices_list [d]) logging
        log_file_name st
  /\ _initialize false managed_memory initial_pool_size devices logging log_file_name st
    = _initialize false managed_memory None (devices_int 0) logging log_file_name st
  /\ _initialize pool_allocator managed_memory initial_pool_size devices false
      log_file_name st
    = _initialize pool_allocator managed_memory initial_pool_size devices false py_None st.
Proof. repeat split. Qed.

(** *** The constructors *)

Lemma constructed_alone_cinit_with (t : py_type) (w : wrapper) (st : module_state) :
  constructible st w -> constructed_alone st t w (construct t (cinit_with w) st).
Proof.
  intros Hnew.
  destruct (construct_cinit_with t w st (Hnew _))
    as (st' & Hrun & Hr & Hp & Hobj & Hmr & Hdef & Hnat & _).
  exists (fresh (dom (objects st))), (fresh (dom (native st))). rewrite Hrun.
  split; [reflexivity |]. split; [exact Hr |].
  split; [exact Hp |]. split; [exact Hobj |]. split; [exact Hnat |].
  split; assumption.
Qed.

(** A constructor whose [__cinit__] raises without a change of the state. *)
Lemma construct_raised (t : py_type) (cinit : py_ref -> M unit) (st : module_state)
    (e : py_exception) :
  (forall st1, cinit (fresh (dom (objects st))) st1 = (Raise e, st1)) ->
  raised st e (construct t cinit st).
Proof.
  intros Hc. rewrite construct_unfold. cbv zeta. rewrite Hc.
  unfold Py_DECREF. cbn [objects set_objects]. rewrite lookup_insert_eq.
  cbn [ob_refcnt]. destruct (decide (1 <= 1)); [| lia].
  split; [reflexivity |]. split; [| split; reflexivity].
  cbn. rewrite delete_insert_eq. apply delete_id, fresh_object_absent.
Qed.

Lemma raised_cinit_with (t : py_type) (w : wrapper) (st : module_state) (e : py_exception) :
  refused st w e -> raised st e (construct t (cinit_with w) st).
Proof.
  intros Hnew. rewrite construct_unfold. cbv zeta.
  unfold cinit_with, bind, new_wrapper. cbn [native set_objects cxx_new].
  rewrite (Hnew (native st)).
  unfold Py_DECREF. cbn [objects set_objects]. rewrite lookup_insert_eq.
  cbn [ob_refcnt]. destruct (decide (1 <= 1)); [| lia].
  split; [reflexivity |]. split; [| split; reflexivity].
  cbn. rewrite delete_insert_eq. apply delete_id, fresh_object_absent.
Qed.

Lemma CNMemMemoryResource_new_in_range (initial_pool_size : Z) (devices : list Z)
    (st : module_state) :
  size_t_range initial_pool_size -> Forall int_range devices ->
  CNMemMemoryResource_new initial_pool_size devices st
  = construct CNMemMemoryResource
      (cinit_with (cnmem_memory_resource_wrapper (Z.to_N initial_pool_size) devices)) st.
Proof.
  intros Hsize Hdev. unfold CNMemMemoryResource_new, construct, bind, tp_new.
  now rewrite (to_size_t_in_range _ Hsize), (to_vector_int_in_range _ Hdev).
Qed.

Lemma CNMemManagedMemoryResource_new_in_range (initial_pool_size : Z) (devices : list Z)
    (st : module_state) :
  size_t_range initial_pool_size -> Forall int_range devices ->
  CNMemManagedMemoryResource_new initial_pool_size devices st
  = construct CNMemManagedMemoryResource
      (cinit_with (cnmem_managed_memory_resource_wrapper (Z.to_N initial_pool_size) devices))
      st.
Proof.
  intros Hsize Hdev. unfold CNMemManagedMemoryResource_new, construct, bind, tp_new.
  now rewrite (to_size_t_in_range _ Hsize), (to_vector_int_in_range _ Hdev).
Qed.

(** X9: constructing a resource that has no upstream. When the arguments
    are in the range of the parameters and the C++ constructor returns, a
    new object with one reference is created around a new wrapper holding
    the arguments as converted, and nothing is installed: the registry
    and the other objects are as before. When the C++ constructor throws,
    the Python constructor raises what the throw became; when a pool size
    or a device is out of range, it raises [OverflowError]; in both cases
    no object is left. *)
Theorem primitive_constructors (st : module_state) (initial_pool_size : Z)
    (devices : list Z) :
  (constructible st cuda_memory_resource_wrapper ->
   constructed_alone st CudaMemoryResource cuda_memory_resource_wrapper
     (CudaMemoryResource_new st))
  /\ (constructible st managed_memory_resource_wrapper ->
      constructed_alone st ManagedMemoryResource managed_memory_resource_wrapper
        (ManagedMemoryResource_new st))
  /\ (size_t_range initial_pool_size -> Forall int_range devices ->
      (constructible st
         (cnmem_memory_resource_wrapper (Z.to_N initial_pool_size) devices) ->
       constructed_alone st CNMemMemoryResource
         (cnmem_memory_resource_wrapper (Z.to_N initial_pool_size) devices)
         (CNMemMemoryResource_new initial_pool_size devices st))
      /\ (constructible st
            (cnmem_managed_memory_resource_wrapper (Z.to_N initial_pool_size) devices) ->
          constructed_alone st CNMemManagedMemoryResource
            (cnmem_managed_memory_resource_wrapper (Z.to_N initial_pool_size) devices)
            (CNMemManagedMemoryResource_new initial_pool_size devices st))
      /\ (forall e,
            refused st (cnmem_memory_resource_wrapper (Z.to_N initial_pool_size) devices) e ->
            raised st e (CNMemMemoryResource_new initial_pool_size devices st))
      /\ (forall e,
            refused st
              (cnmem_managed_memory_resource_wrapper (Z.to_N initial_pool_size) devices) e ->
            raised st e (CNMemManagedMemoryResource_new initial_pool_size devices st)))
  /\ (forall e, refused st cuda_memory_resource_wrapper e ->
        raised st e (CudaMemoryResource_new st))
  /\ (forall e, refused st managed_memory_resource_wrapper e ->
        raised st e (ManagedMemoryResource_new st))
  /\ (~ (size_t_range initial_pool_size /\ Forall int_range devices) ->
      (exists msg,
          raised st (OverflowError msg) (CNMemMemoryResource_new initial_pool_size devices st))
      /\ (exists msg,
            raised st (OverflowError msg)
              (CNMemManagedMemoryResource_new initial_pool_size devices st))).
Proof.
  split; [apply constructed_alone_cinit_with |].
  split; [apply constructed_alone_cinit_with |].
  split.
  { intros Hsize Hdev.
    rewrite (CNMemMemoryResource_new_in_range st Hsize Hdev),
      (CNMemManagedMemoryResource_new_in_range st Hsize Hdev).
    split; [apply constructed_alone_cinit_with |].
    split; [apply constructed_alone_cinit_with |].
    split; intros e; apply raised_cinit_with. }
  split; [intros e; apply raised_cinit_with |].
  split; [intros e; apply raised_cinit_with |].
  intros Hout. split.
  - destruct (pool_args_out_of_range
                (fun n v => cinit_with (cnmem_memory_resource_wrapper n v)
                              (fresh (dom (objects st)))) Hout) as [msg Hmsg].
    exists msg. now apply construct_raised.
  - destruct (pool_args_out_of_range
                (fun n v => cinit_with (cnmem_managed_memory_resource_wrapper n v)
                              (fresh (dom (objects st)))) Hout) as [msg Hmsg].
    exists msg. now apply construct_raised.
Qed.

(** *** The constructors that take an upstream *)

Lemma constructed_over_upstream (t : py_type) (mk : shared_ptr -> wrapper)
    (up : py_ref) (oup : py_object) (st : module_state) :
  objects st !! up = Some oup ->
  constructible st (mk (c_obj oup)) ->
  constructed_over st up oup t (mk (c_obj oup))
    (construct t (fun self => let! u := read_c_obj (Some up) in cinit_with (mk u) self) st).
Proof.
  intros Hup Hnew.
  destruct (@construct_over_upstream t mk up oup st Hup (Hnew _))
    as (st' & Hrun & Hr & Hp & Hobj & Hmr & Hdef & Hnat & _ & Hframe).
  exists (fresh (dom (objects st))), (fresh (dom (native st))). rewrite Hrun.
  split; [reflexivity |]. split; [exact Hr |]. split; [exact Hp |].
  split; [exact Hobj |].
  split.
  { cbn [snd]. rewrite Hobj, lookup_insert_ne; [exact Hup |].
    intros Heq. rewrite Heq, Hup in Hr. discriminate. }
  split; [exact Hnat |].
  split; [intros q Hq Hsome; exact (Hframe up oup q Hup Hq Hsome) |].
  split; assumption.
Qed.

Lemma raised_over_upstream (t : py_type) (mk : shared_ptr -> wrapper)
    (up : py_ref) (oup : py_object) (st : module_state) (e : py_exception) :
  objects st !! up = Some oup ->
  refused st (mk (c_obj oup)) e ->
  raised st e
    (construct t (fun self => let! u := read_c_obj (Some up) in cinit_with (mk u) self) st).
Proof.
  intros Hup Hnew.
  destruct (@construct_over_upstream_refused t mk up oup st e Hup (Hnew _))
    as (st' & Hrun & Hobj & Hmr & _).
  rewrite Hrun. split; [reflexivity |]. split; [exact Hobj |]. split; [exact Hmr |].
  pose proof (fresh_object_absent st) as Hr.
  assert (fresh (dom (objects st)) <> up) as Hne
    by (intros Heq; rewrite Heq, Hup in Hr; discriminate).
  revert Hrun. rewrite construct_unfold. cbv zeta. unfold bind, read_c_obj.
  cbn [objects set_objects]. rewrite lookup_insert_ne, Hup by assumption.
  unfold cinit_with, bind, new_wrapper. cbn [native set_objects cxx_new].
  rewrite (Hnew (native st)).
  unfold Py_DECREF. cbn [objects set_objects]. rewrite lookup_insert_eq.
  cbn [ob_refcnt]. destruct (decide (1 <= 1)); [| lia].
  intros [= <-]. reflexivity.
Qed.

(** The conversion of two sizes fails. *)
Lemma size_args_out_of_range (a b : Z) {A} (k : N -> N -> M A) :
  ~ (size_t_range a /\ size_t_range b) ->
  exists msg, forall st,
    (let! a := to_size_t a in
     let! b := to_size_t b in
     k a b) st = (Raise (OverflowError msg), st).
Proof.
  intros Hout.
  destruct (size_t_range_dec a) as [Ha | Ha].
  - destruct (size_t_range_dec b) as [Hb | Hb]; [exfalso; apply Hout; now split |].
    destruct (to_size_t_out_of_range Hb) as [msg Hmsg].
    exists msg. intros st. unfold bind.
    now rewrite (to_size_t_in_range _ Ha), Hmsg.
  - destruct (to_size_t_out_of_range Ha) as [msg Hmsg].
    exists msg. intros st. unfold bind. now rewrite Hmsg.
Qed.

Lemma PoolMemoryResource_new_in_range (upstream : option py_ref) (a b : Z)
    (st : module_state) :
  size_t_range a -> size_t_range b ->
  PoolMemoryResource_new upstream a b st
  = construct PoolMemoryResource
      (fun self => let! u := read_c_obj upstream in
                   cinit_with (pool_memory_resource_wrapper u (Z.to_N a) (Z.to_N b)) self) st.
Proof.
  intros Ha Hb. unfold PoolMemoryResource_new, construct, bind, tp_new.
  now rewrite (to_size_t_in_range _ Ha), (to_size_t_in_range _ Hb).
Qed.

Lemma FixedSizeMemoryResource_new_in_range (upstream : option py_ref) (a b : Z)
    (st : module_state) :
  size_t_range a -> size_t_range b ->
  FixedSizeMemoryResource_new upstream a b st
  = construct FixedSizeMemoryResource
      (fun self => let! u := read_c_obj upstream in
                   cinit_with (fixed_size_memory_resource_wrapper u (Z.to_N a) (Z.to_N b))
                     self) st.
Proof.
  intros Ha Hb. unfold FixedSizeMemoryResource_new, construct, bind, tp_new.
  now rewrite (to_size_t_in_range _ Ha), (to_size_t_in_range _ Hb).
Qed.

(** X10: a pool, fixed-size or binning resource, or a logging adaptor with a
    file name given as [bytes], built over a live upstream object. When
    the sizes are in the range of [size_t] and the C++ constructor
    returns, the new object holds one reference, its wrapper records the
    upstream's wrapper and the arguments as converted, the upstream
    object itself gains no reference and its wrapper stays. With [None]
    for the upstream the constructor has no defined result. A size out of
    range raises [OverflowError] before the upstream is looked at, and no
    object is left. *)
Theorem upstream_constructors (st : module_state) (up : py_ref) (oup : py_object)
    (a b : Z) (s : string) :
  objects st !! up = Some oup ->
  (size_t_range a -> size_t_range b ->
   (constructible st (pool_memory_resource_wrapper (c_obj oup) (Z.to_N a) (Z.to_N b)) ->
    constructed_over st up oup PoolMemoryResource
      (pool_memory_resource_wrapper (c_obj oup) (Z.to_N a) (Z.to_N b))
      (PoolMemoryResource_new (Some up) a b st))
   /\ (constructible st
         (fixed_size_memory_resource_wrapper (c_obj oup) (Z.to_N a) (Z.to_N b)) ->
       constructed_over st up oup FixedSizeMemoryResource
         (fixed_size_memory_resource_wrapper (c_obj oup) (Z.to_N a) (Z.to_N b))
         (FixedSizeMemoryResource_new (Some up) a b st))
   /\ fst (PoolMemoryResource_new None a b st) = Undefined
   /\ fst (FixedSizeMemoryResource_new None a b st) = Undefined)
  /\ (constructible st (binning_memory_resource_wrapper (c_obj oup) []) ->
      constructed_over st up oup BinningMemoryResource
        (binning_memory_resource_wrapper (c_obj oup) [])
        (BinningMemoryResource_new (Some up) st))
  /\ (constructible st (logging_resource_adaptor_wrapper (c_obj oup) s) ->
      constructed_over st up oup LoggingResourceAdaptor
        (logging_resource_adaptor_wrapper (c_obj oup) s)
        (LoggingResourceAdaptor_new (Some up) (py_bytes s) st))
  /\ fst (BinningMemoryResource_new None st) = Undefined
  /\ fst (LoggingResourceAdaptor_new None (py_bytes s) st) = Undefined
  /\ (~ (size_t_range a /\ size_t_range b) ->
      forall upstream,
        (exists msg,
            raised st (OverflowError msg) (PoolMemoryResource_new upstream a b st))
        /\ (exists msg,
              raised st (OverflowError msg)
                (FixedSizeMemoryResource_new upstream a b st))).
Proof.
  intros Hup. split.
  { intros Ha Hb.
    rewrite !(PoolMemoryResource_new_in_range _ st Ha Hb),
      !(FixedSizeMemoryResource_new_in_range _ st Ha Hb).
    split; [exact (@constructed_over_upstream PoolMemoryResource
                     (fun u => pool_memory_resource_wrapper u (Z.to_N a) (Z.to_N b))
                     up oup st Hup) |].
    split; [exact (@constructed_over_upstream FixedSizeMemoryResource
                     (fun u => fixed_size_memory_resource_wrapper u (Z.to_N a) (Z.to_N b))
                     up oup st Hup) |].
    split; reflexivity. }
  split; [exact (@constructed_over_upstream BinningMemoryResource
                   (fun u => binning_memory_resource_wrapper u []) up oup st Hup) |].
  split; [exact (@constructed_over_upstream LoggingResourceAdaptor
                   (fun u => logging_resource_adaptor_wrapper u s) up oup st Hup) |].
  split; [reflexivity |]. split; [reflexivity |].
  intros Hout upstream. split.
  - destruct (size_args_out_of_range
                (fun a b => let! u := read_c_obj upstream in
                            cinit_with (pool_memory_resource_wrapper u a b)
                              (fresh (dom (objects st)))) Hout) as [msg Hmsg].
    exists msg. now apply construct_raised.
  - destruct (size_args_out_of_range
                (fun a b => let! u := read_c_obj upstream in
                            cinit_with (fixed_size_memory_resource_wrapper u a b)
                              (fresh (dom (objects st)))) Hout) as [msg Hmsg].
    exists msg. now apply construct_raised.
Qed.

(** X11: a file name passed explicitly is not checked by the binding. A
    [str] is refused by the conversion for the C++ constructor, whatever
    it holds and whatever the upstream is. [bytes], the empty ones
    included, go to the C++ constructor as they are: the adaptor is built
    when that constructor returns, and what it throws is raised. The
    environment plays no part. *)
Theorem explicit_log_file_name_is_not_checked (st : module_state)
    (env : gmap string string) (up : py_ref) (oup : py_object) (b : string) :
  objects st !! up = Some oup ->
  let st_env := {| _mr := _mr st; objects := objects st; native := native st;
                   default_resource := default_resource st; environ := env;
                   cxx_new := cxx_new st |} in
  (forall upstream s,
      raised st_env (TypeError str_refused)
        (LoggingResourceAdaptor_new upstream (py_str s) st_env))
  /\ (constructible st (logging_resource_adaptor_wrapper (c_obj oup) b) ->
      constructed_over st_env up oup LoggingResourceAdaptor
        (logging_resource_adaptor_wrapper (c_obj oup) b)
        (LoggingResourceAdaptor_new (Some up) (py_bytes b) st_env))
  /\ (forall e, refused st (logging_resource_adaptor_wrapper (c_obj oup) b) e ->
        raised st_env e (LoggingResourceAdaptor_new (Some up) (py_bytes b) st_env))
  /\ fst (LoggingResourceAdaptor_new (Some up) (py_bytes b) st_env)
     = fst (LoggingResourceAdaptor_new (Some up) (py_bytes b) st).
Proof.
  intros Hup st_env.
  split; [intros upstream s; now apply construct_raised |].
  split; [exact (@constructed_over_upstream LoggingResourceAdaptor
                   (fun u => logging_resource_adaptor_wrapper u b) up oup st_env Hup) |].
  split; [intros e; exact (@raised_over_upstream LoggingResourceAdaptor
                             (fun u => logging_resource_adaptor_wrapper u b)
                             up oup st_env e Hup) |].
  rewrite !LoggingResourceAdaptor_new_explicit.
  destruct (cxx_new st (native st) (logging_resource_adaptor_wrapper (c_obj oup) b))
    as [e |] eqn:Hnew.
  - destruct (@construct_over_upstream_refused LoggingResourceAdaptor
                (fun u => logging_resource_adaptor_wrapper u b) up oup st e Hup Hnew)
      as (st1 & -> & _).
    destruct (@construct_over_upstream_refused LoggingResourceAdaptor
                (fun u => logging_resource_adaptor_wrapper u b) up oup st_env e Hup Hnew)
      as (st2 & -> & _).
    reflexivity.
  - destruct (@construct_over_upstream LoggingResourceAdaptor
                (fun u => logging_resource_adaptor_wrapper u b) up oup st Hup Hnew)
      as (st1 & -> & _).
    destruct (@construct_over_upstream LoggingResourceAdaptor
                (fun u => logging_resource_adaptor_wrapper u b) up oup st_env Hup Hnew)
      as (st2 & -> & _).
    reflexivity.
Qed.

(** *** [_set_default_resource] *)

(** X12: passing [None]: the registry gives up the resource it held and is
    left at [None]; reading [c_obj] through it then has no defined
    result. *)
Theorem set_default_resource_of_None (st : module_state) :
  registry_wf st ->
  exists st', _set_default_resource None st = (Undefined, st')
              /\ _mr st' = None
              /\ default_resource st' = default_resource st.
Proof.
  intros Hwf. unfold _set_default_resource, assign__mr, bind, Py_XINCREF, ret, get, modify.
  destruct (_mr st) as [old |] eqn:Hold.
  - destruct (Hwf old Hold) as [o Ho]. unfold Py_XDECREF, Py_DECREF.
    cbn [objects set__mr]. rewrite Ho.
    destruct (decide (ob_refcnt o <= 1)); eexists; (split; [reflexivity |]); now split.
  - eexists. split; [reflexivity |]. now split.
Qed.

(** X13: the registry accounts for exactly one reference: after
    [_set_default_resource(r)] every object that was referenced outside
    the registry has the references it had outside the registry, plus one
    if it is [r]; its type, its [c_obj] and the wrapper behind it are
    unchanged. Installing the resource that is installed already changes
    no reference count. *)
Theorem set_default_resource_reference_accounting (st : module_state) (r : py_ref)
    (o : py_object) :
  registry_wf st ->
  objects st !! r = Some o -> registry_share st r < ob_refcnt o ->
  exists st',
    _set_default_resource (Some r) st = (Return tt, st')
    /\ _mr st' = Some r
    /\ (forall x ox, objects st !! x = Some ox -> registry_share st x < ob_refcnt ox ->
          exists ox', objects st' !! x = Some ox'
                      /\ ob_type ox' = ob_type ox /\ c_obj ox' = c_obj ox
                      /\ ob_refcnt ox'
                         = ob_refcnt ox - registry_share st x
                           + (if decide (x = r) then 1 else 0)
                      /\ forall p, c_obj ox = Some p -> native st' !! p = native st !! p)
    /\ (_mr st = Some r ->
        exists o', objects st' !! r = Some o' /\ ob_refcnt o' = ob_refcnt o).
Proof.
  intros Hwf Hr Hheld.
  destruct (@set_default_resource_live st r o Hwf Hr Hheld)
    as (st' & Hrun & Hmr & _ & _ & Hall).
  assert (forall x, registry_share st' x = if decide (x = r) then 1 else 0) as Hshare.
  { intros x. unfold registry_share. rewrite Hmr.
    repeat case_decide; congruence. }
  exists st'. split; [exact Hrun |]. split; [exact Hmr |]. split.
  - intros x ox Hx Hxheld.
    destruct (Hall x ox Hx Hxheld) as (ox' & Hx' & Hty & Hc & Hcnt & Hnat).
    exists ox'. rewrite <- Hshare. repeat split; assumption.
  - intros Hinstalled.
    destruct (Hall r o Hr Hheld) as (o' & Hr' & _ & _ & Hcnt & _).
    exists o'. split; [exact Hr' |].
    rewrite Hcnt, Hshare. unfold registry_share in *. rewrite Hinstalled in *.
    destruct (decide (Some r = Some r)); [| congruence].
    destruct (decide (r = r)); [lia | congruence].
Qed.

(** *** The theorems at concrete states *)


Lemma initialize_installs_selected_witness :
  registry_wf (module_init no_environment)
  /\ args_convert true None devices_None
  /\ constructible (module_init no_environment)
       (selected_wrapper true false None devices_None)
  /\ exists st' r p,
      _initialize true false None devices_None false py_None (module_init no_environment)
      = (Return tt, st')
      /\ _mr st' = Some r
      /\ objects st' !! r = Some (constructed CNMemMemoryResource p)
      /\ native st' !! p = Some (created (cnmem_memory_resource_wrapper 0 [0%Z]))
      /\ default_resource st' = Some p
      /\ get_default_resource_type st' = (Return CNMemMemoryResource, st')
      /\ is_initialized st' = (Return true, st').
Proof.
  assert (registry_wf (module_init no_environment)) as Hwf
    by (intros r Hr; vm_compute in Hr; discriminate Hr).
  assert (args_convert true None devices_None) as Hargs.
  { intros _. split; [vm_compute; split; discriminate |].
    repeat constructor; vm_compute; discriminate. }
  assert (constructible (module_init no_environment)
            (selected_wrapper true false None devices_None)) as Hnew
    by (intros h; reflexivity).
  split; [exact Hwf |]. split; [exact Hargs |]. split; [exact Hnew |].
  exact (@initialize_installs_selected true false None devices_None py_None
           (module_init no_environment) Hwf Hargs Hnew).
Defined.


Lemma flush_logs_after_initialize_witness :
  registry_wf (module_init no_environment)
  /\ _initialize false false None (devices_int 0) false py_None (module_init no_environment)
     = (Return tt, after_initialize)
  /\ fst (_flush_logs after_initialize) = Raise (AttributeError flush_message).
Proof.
  assert (registry_wf (module_init no_environment)) as Hwf
    by (intros r Hr; vm_compute in Hr; discriminate Hr).
  assert (_initialize false false None (devices_int 0) false py_None
            (module_init no_environment) = (Return tt, after_initialize)) as Hrun
    by (vm_compute; reflexivity).
  split; [exact Hwf |]. split; [exact Hrun |].
  exact (@flush_logs_after_initialize false false None (devices_int 0) false py_None
           (module_init no_environment) after_initialize Hwf Hrun).
Defined.

Lemma is_initialized_after_initialize_witness :
  registry_wf after_initialize
  /\ _initialize false false None (devices_int 0) true py_None after_initialize
     = (Raise (AttributeError encode_message),
        snd (_initialize false false None (devices_int 0) true py_None after_initialize))
  /\ registry_wf (snd (_initialize false false None (devices_int 0) true py_None
                         after_initialize))
  /\ registry_set (snd (_initialize false false None (devices_int 0) true py_None
                          after_initialize))
  /\ exists b,
      is_initialized (snd (_initialize false false None (devices_int 0) true py_None
                             after_initialize))
      = (Return b,
         snd (_initialize false false None (devices_int 0) true py_None after_initialize))
      /\ (b = true <-> Raise (AttributeError encode_message) = Return tt).
Proof.
  assert (registry_wf after_initialize) as Hwf.
  { intros r Hr. vm_compute in Hr. injection Hr as <-. vm_compute. eauto. }
  assert (_initialize false false None (devices_int 0) true py_None after_initialize
          = (Raise (AttributeError encode_message),
             snd (_initialize false false None (devices_int 0) true py_None
                    after_initialize))) as Hrun
    by (vm_compute; reflexivity).
  split; [exact Hwf |]. split; [exact Hrun |].
  exact (@is_initialized_after_initialize false false None (devices_int 0) true py_None
           after_initialize _ _ Hwf Hrun).
Defined.

Lemma primitive_constructors_witness :
  size_t_range 1024 /\ Forall int_range [0%Z; 1%Z]
  /\ constructible after_initialize (cnmem_memory_resource_wrapper 1024 [0%Z; 1%Z])
  /\ constructed_alone after_initialize CNMemMemoryResource
       (cnmem_memory_resource_wrapper 1024 [0%Z; 1%Z])
       (CNMemMemoryResource_new 1024 [0%Z; 1%Z] after_initialize).
Proof.
  assert (size_t_range 1024) as Hsize by (vm_compute; split; discriminate).
  assert (Forall int_range [0%Z; 1%Z]) as Hdev
    by (repeat constructor; vm_compute; discriminate).
  assert (constructible after_initialize (cnmem_memory_resource_wrapper 1024 [0%Z; 1%Z]))
    as Hnew by (intros h; vm_compute; reflexivity).
  split; [exact Hsize |]. split; [exact Hdev |]. split; [exact Hnew |].
  exact (proj1 (proj1 (proj2 (proj2 (@primitive_constructors after_initialize 1024%Z
                                       [0%Z; 1%Z]))) Hsize Hdev) Hnew).
Defined.

Lemma upstream_constructors_witness :
  objects after_initialize !! 2%positive
  = Some (constructed CudaMemoryResource 1%positive)
  /\ size_t_range 1024 /\ size_t_range 4096
  /\ constructible after_initialize
       (pool_memory_resource_wrapper (Some 1%positive) 1024 4096)
  /\ constructed_over after_initialize 2%positive
       (constructed CudaMemoryResource 1%positive) PoolMemoryResource
       (pool_memory_resource_wrapper (Some 1%positive) 1024 4096)
       (PoolMemoryResource_new (Some 2%positive) 1024 4096 after_initialize)
  /\ fst (PoolMemoryResource_new None 1024 4096 after_initialize) = Undefined.
Proof.
  assert (objects after_initialize !! 2%positive
          = Some (constructed CudaMemoryResource 1%positive)) as Hup
    by (vm_compute; reflexivity).
  assert (size_t_range 1024) as Ha by (vm_compute; split; discriminate).
  assert (size_t_range 4096) as Hb by (vm_compute; split; discriminate).
  assert (constructible after_initialize
            (pool_memory_resource_wrapper (Some 1%positive) 1024 4096)) as Hnew
    by (intros h; vm_compute; reflexivity).
  split; [exact Hup |]. split; [exact Ha |]. split; [exact Hb |]. split; [exact Hnew |].
  destruct (proj1 (@upstream_constructors after_initialize 2%positive
                     (constructed CudaMemoryResource 1%positive) 1024%Z 4096%Z "rmm.log"
                     Hup) Ha Hb) as (Hpool & _ & Hnone & _).
  split; [exact (Hpool Hnew) | exact Hnone].
Defined.

Lemma explicit_log_file_name_is_not_checked_witness :
  (objects after_initialize !! 2%positive
   = Some (constructed CudaMemoryResource 1%positive)
   /\ constructible after_initialize
        (logging_resource_adaptor_wrapper (Some 1%positive) EmptyString)
   /\ exists r p,
       fst (LoggingResourceAdaptor_new (Some 2%positive) (py_bytes EmptyString)
              after_initialize) = Return r
       /\ native (snd (LoggingResourceAdaptor_new (Some 2%positive) (py_bytes EmptyString)
                         after_initialize)) !! p
          = Some (created (logging_resource_adaptor_wrapper (Some 1%positive) EmptyString)))
  /\ (objects one_resource !! 1%positive
      = Some (constructed CudaMemoryResource 1%positive)
      /\ refused one_resource
           (logging_resource_adaptor_wrapper (Some 1%positive) EmptyString)
           (RuntimeError "no log destination")
      /\ raised one_resource (RuntimeError "no log destination")
           (LoggingResourceAdaptor_new (Some 1%positive) (py_bytes EmptyString)
              one_resource)).
Proof.
  split.
  2: {
    assert (objects one_resource !! 1%positive
            = Some (constructed CudaMemoryResource 1%positive)) as Hup
      by (vm_compute; reflexivity).
    assert (refused one_resource
              (logging_resource_adaptor_wrapper (Some 1%positive) EmptyString)
              (RuntimeError "no log destination")) as Hrefused
      by (intros h; vm_compute; reflexivity).
    split; [exact Hup |]. split; [exact Hrefused |].
    exact (proj1 (proj2 (proj2 (@explicit_log_file_name_is_not_checked one_resource
                                  no_environment 1%positive
                                  (constructed CudaMemoryResource 1%positive)
                                  EmptyString Hup)))
             (RuntimeError "no log destination") Hrefused). }
  assert (objects after_initialize !! 2%positive
          = Some (constructed CudaMemoryResource 1%positive)) as Hup
    by (vm_compute; reflexivity).
  assert (constructible after_initialize
            (logging_resource_adaptor_wrapper (Some 1%positive) EmptyString)) as Hnew
    by (intros h; vm_compute; reflexivity).
  split; [exact Hup |]. split; [exact Hnew |].
  destruct (proj1 (proj2 (@explicit_log_file_name_is_not_checked after_initialize
                            no_environment 2%positive
                            (constructed CudaMemoryResource 1%positive) EmptyString Hup))
              Hnew)
    as (r & p & Hrun & _ & _ & _ & _ & Hp & _).
  exists r, p. split; [exact Hrun | exact Hp].
Defined.

Lemma set_default_resource_of_None_witness :
  registry_wf after_initialize
  /\ exists st', _set_default_resource None after_initialize = (Undefined, st')
                 /\ _mr st' = None
                 /\ default_resource st' = default_resource after_initialize.
Proof.
  assert (registry_wf after_initialize) as Hwf.
  { intros r Hr. vm_compute in Hr. injection Hr as <-. vm_compute. eauto. }
  split; [exact Hwf |].
  exact (@set_default_resource_of_None after_initialize Hwf).
Defined.

Lemma set_default_resource_reference_accounting_witness :
  registry_wf two_resources
  /\ objects two_resources !! 1%positive
     = Some (constructed CudaMemoryResource 1%positive)
  /\ registry_share two_resources 1%positive
     < ob_refcnt (constructed CudaMemoryResource 1%positive)
  /\ exists st',
      _set_default_resource (Some 1%positive) two_resources = (Return tt, st')
      /\ _mr st' = Some 1%positive.
Proof.
  assert (registry_wf two_resources) as Hwf by (intros r Hr; vm_compute in Hr; discriminate).
  assert (objects two_resources !! 1%positive
          = Some (constructed CudaMemoryResource 1%positive)) as Hr
    by (vm_compute; reflexivity).
  assert (registry_share two_resources 1%positive
          < ob_refcnt (constructed CudaMemoryResource 1%positive)) as Hheld
    by (vm_compute; lia).
  split; [exact Hwf |]. split; [exact Hr |]. split; [exact Hheld |].
  destruct (@set_default_resource_reference_accounting two_resources 1%positive
              (constructed CudaMemoryResource 1%positive) Hwf Hr Hheld)
    as (st' & Hrun & Hmr & _).
  exists st'. split; [exact Hrun | exact Hmr].
Defined.

End registry_extra.
